(** * The sample-sheet notebook of quilt-package-metadata-athena

    A shallow embedding of the code cells of
    [03_run_nfcore_rnaseq_with_nfquilt.ipynb]: the loop that collects the
    sample names and the fastq locations from the raw-data packages, the
    [pandas.DataFrame] built from the three lists, its serialisation with
    [to_csv] and the upload of the resulting file as a new package.

    Python strings are modelled by [string], Python lists by [list], the
    [meta] dictionary of a package and the registries by [gmap].  A
    [string] is a sequence of bytes; on UTF-8 text, substring search and
    replacement give what they give on code points.  The registry is the
    only shared state of the notebook: the cells run in a
    state-and-exception monad over it.  The [print] calls of the loop write
    to the cell output only and are left out.  [packages] and [quilt3] are
    not bound in the notebook itself: the listing is an input, and the
    calls into quilt3 and pandas follow the behaviour of these libraries
    (Python 3.11, as the notebook's metadata says). *)

From Stdlib Require Import String Ascii List ZArith Lia Bool.
From stdpp Require Import gmap strings pretty.
Import ListNotations.
Open Scope string_scope.
Open Scope list_scope.

(** ** Python string operations used by the notebook *)

Module Py.

(** [sub in s] on strings: [sub] occurs in [s] as a contiguous substring. *)
Fixpoint str_in (sub s : string) : bool :=
  String.prefix sub s ||
  match s with
  | EmptyString => false
  | String _ s' => str_in sub s'
  end.

(** The scan of [str.replace] for a non-empty [old]: occurrences are found
    from the left and do not overlap.  [skip] counts the characters of an
    occurrence that are still to be dropped. *)
Fixpoint replace_scan (old new : string) (skip : nat) (s : string) : string :=
  match s with
  | EmptyString => EmptyString
  | String c s' =>
      match skip with
      | S k => replace_scan old new k s'
      | O =>
          if String.prefix old s
          then new +:+ replace_scan old new (String.length old - 1) s'
          else String c (replace_scan old new 0 s')
      end
  end.

(** With an empty [old], [str.replace] puts [new] before every character and
    at the end. *)
Fixpoint replace_empty (new s : string) : string :=
  match s with
  | EmptyString => new
  | String c s' => new +:+ String c (replace_empty new s')
  end.

(** [s.replace(old, new)] *)
Definition str_replace (s old new : string) : string :=
  match old with
  | EmptyString => replace_empty new s
  | String _ _ => replace_scan old new 0 s
  end.

(** The exceptions the cells can raise. *)
Inductive exn : Type :=
| RegistryAccessError   (* quilt3: the package cannot be browsed or pushed *)
| KeyError (key : string)
| TypeError
| ValueError
| IndexError.

Inductive result (A : Type) : Type :=
| Ok (a : A)
| Raise (e : exn).

Arguments Ok {A} a.
Arguments Raise {A} e.

End Py.

Export Py.

(** ** The registry client (quilt3) *)

Module Quilt.

(** A metadata value, as the JSON object of a package holds it. *)
Inductive json : Type :=
| JStr (s : string)
| JNum (z : Z)
| JBool (b : bool)
| JNull
| JCompound.   (* an array or an object; the loop never looks inside *)

(** A package: its metadata and its entries, each a logical key with the
    physical location it points to, in iteration order. *)
Record Package : Type := mkPackage {
  meta : gmap string json;
  entries : list (string * string)
}.

(** [list(pkg)]: the logical keys. *)
Definition keys (pkg : Package) : list string := map fst (entries pkg).

(** All registries, by address; a registry maps package names to packages. *)
Abbreviation Registries := (gmap string (gmap string Package)).

(** Computations of the notebook: they read and write the registries and
    may raise. *)
Definition M (A : Type) : Type := Registries -> result A * Registries.

Definition ret {A} (a : A) : M A := fun w => (Ok a, w).

Definition raise {A} (e : exn) : M A := fun w => (Raise e, w).

Definition bind {A B} (c : M A) (k : A -> M B) : M B :=
  fun w =>
    match c w with
    | (Ok a, w') => k a w'
    | (Raise e, w') => (Raise e, w')
    end.

Definition lift {A} (r : result A) : M A := fun w => (r, w).

(** [quilt3.Package.browse(name, registry)]: a read of the registry. *)
Definition browse (name registry : string) : M Package :=
  fun w =>
    match w !! registry with
    | Some reg =>
        match reg !! name with
        | Some pkg => (Ok pkg, w)
        | None => (Raise RegistryAccessError, w)
        end
    | None => (Raise RegistryAccessError, w)
    end.

(** Assignment to a key of the ordered dictionary of entries: a key that is
    present keeps its place. *)
Fixpoint set_entry (logical_key path : string) (es : list (string * string))
  : list (string * string) :=
  match es with
  | [] => [(logical_key, path)]
  | e :: rest =>
      if String.eqb (fst e) logical_key
      then (logical_key, path) :: rest
      else e :: set_entry logical_key path rest
  end.

(** [pkg.set(logical_key, path)] on a package under construction. *)
Definition set (pkg : Package) (logical_key path : string) : Package :=
  mkPackage (meta pkg) (set_entry logical_key path (entries pkg)).

(** [pkg.push(name, registry=..., message=...)]: a write; the package
    becomes the latest version under [name]. *)
Definition push (pkg : Package) (name registry : string) : M unit :=
  fun w =>
    match w !! registry with
    | Some reg => (Ok tt, <[registry := <[name := pkg]> reg]> w)
    | None => (Raise RegistryAccessError, w)
    end.

(** [d[key]] on the metadata dictionary. *)
Definition getitem (d : gmap string json) (key : string) : result json :=
  match d !! key with
  | Some v => Ok v
  | None => Raise (KeyError key)
  end.

(** [v + s] for a string [s]: defined for a string [v] only. *)
Definition add_str (v : json) (s : string) : result string :=
  match v with
  | JStr x => Ok (x +:+ s)
  | _ => Raise TypeError
  end.

End Quilt.

Export Quilt.

Notation "x <- c ;; k" := (bind c (fun x => k))
  (at level 100, c at next level, right associativity).

(** ** The data frame library (pandas) and the csv writer under it *)

Module Pandas.

(** A frame with a default [RangeIndex]: the length of the index and the
    columns in order, each a label with its cells.  All cells of the
    notebook's frame are strings. *)
Record DataFrame : Type := mkDataFrame {
  nrows : nat;
  columns : list (string * list string)
}.

(** [pd.DataFrame(data)] for a dictionary of lists, in the order of the
    dictionary: the lists must have one length
    ("All arrays must be of the same length"). *)
Definition DataFrame_of_dict (data : list (string * list string))
  : result DataFrame :=
  match data with
  | [] => Ok (mkDataFrame 0 [])
  | (_, cells) :: rest =>
      if forallb (fun col => length (snd col) =? length cells)%nat rest
      then Ok (mkDataFrame (length cells) data)
      else Raise ValueError
  end.

(** [df.shape] *)
Definition shape (df : DataFrame) : nat * nat :=
  (nrows df, length (columns df)).

Definition has_column (df : DataFrame) (label : string) : bool :=
  existsb (fun col => String.eqb (fst col) label) (columns df).

(** [df.insert(loc, column, value)] for a scalar [value], which fills the
    new column; the label must be new and [loc] within the columns. *)
Definition insert (df : DataFrame) (loc : nat) (column value : string)
  : result DataFrame :=
  if has_column df column then Raise ValueError
  else if (length (columns df) <? loc)%nat then Raise IndexError
  else
    Ok (mkDataFrame (nrows df)
          (firstn loc (columns df)
             ++ (column, repeat value (nrows df)) :: skipn loc (columns df))).

(** The labels and the rows of a frame, as [to_csv] walks them. *)
Definition labels (df : DataFrame) : list string := map fst (columns df).

Definition row (df : DataFrame) (i : nat) : list string :=
  map (fun col => nth i (snd col) "") (columns df).

Definition rows (df : DataFrame) : list (list string) :=
  map (row df) (seq 0 (nrows df)).

(** *** csv.writer, with the dialect [to_csv] sets: the comma as
    delimiter, the double quote as quote character, written twice inside a
    quoted field, and minimal quoting *)

Definition delimiter : ascii := ","%char.
Definition quotechar : ascii := "034"%char.
Definition LF : ascii := "010"%char.
Definition CR : ascii := "013"%char.

(** Minimal quoting: a field is quoted when it holds the delimiter, the
    quote character or a character of the line terminator. *)
Definition special (lineterminator : string) (c : ascii) : bool :=
  Ascii.eqb c delimiter || Ascii.eqb c quotechar
  || existsb (Ascii.eqb c) (list_ascii_of_string lineterminator).

Fixpoint needs_quoting (lineterminator s : string) : bool :=
  match s with
  | EmptyString => false
  | String c s' => special lineterminator c || needs_quoting lineterminator s'
  end.

Fixpoint double_quotes (s : string) : string :=
  match s with
  | EmptyString => EmptyString
  | String c s' =>
      if Ascii.eqb c quotechar
      then String quotechar (String quotechar (double_quotes s'))
      else String c (double_quotes s')
  end.

Definition quoted (s : string) : string :=
  String quotechar (double_quotes s +:+ String quotechar EmptyString).

Definition write_field (lineterminator s : string) : string :=
  if needs_quoting lineterminator s then quoted s else s.

(** [writer.writerow(fields)]: a record that would be empty, a single
    empty field, is written quoted. *)
Definition writerow (lineterminator : string) (fields : list string)
  : string :=
  match fields with
  | [EmptyString] => quoted EmptyString
  | _ => String.concat "," (map (write_field lineterminator) fields)
  end +:+ lineterminator.

(** [df.to_csv(path, index=...)]: the text written to [path], the header
    first.  With [index] the row labels [0, 1, ...] come first, under an
    empty label. *)
Definition to_csv (df : DataFrame) (index : bool) (lineterminator : string)
  : string :=
  let header := (if index then [EmptyString] else []) ++ labels df in
  let record i := (if index then [pretty i] else []) ++ row df i in
  String.concat ""
    (map (writerow lineterminator)
       (header :: map record (seq 0 (nrows df)))).

(** [os.linesep], the default line terminator of [to_csv]. *)
Inductive Platform : Type := Posix | Windows.

Definition linesep (pf : Platform) : string :=
  match pf with
  | Posix => String LF EmptyString
  | Windows => String CR (String LF EmptyString)
  end.

End Pandas.

Export Pandas.

(** ** Cell 4: the lists of samples and fastq locations *)

Module Notebook.

(** The state of the loop: the three lists it rebinds. *)
Record Lists : Type := mkLists {
  samples : list string;
  fastq1 : list string;
  fastq2 : list string
}.

(** [p.replace("ccle/20190225_PRJNA523380_", "")] *)
Definition stripped (p : string) : string :=
  str_replace p "ccle/20190225_PRJNA523380_" "".

(** [registry + "/" + batch + "_" + p.replace(...) + "/" + file] *)
Definition location (registry batch p file : string) : string :=
  (((((registry +:+ "/") +:+ batch) +:+ "_") +:+ stripped p) +:+ "/") +:+ file.

(** The body of [for file in pkg_files]: two independent tests. *)
Definition file_step (registry batch p : string)
    (acc : list string * list string) (file : string)
  : list string * list string :=
  let fq1 :=
    if str_in "_1.fastq.gz" file
    then fst acc ++ [location registry batch p file]
    else fst acc in
  let fq2 :=
    if str_in "_2.fastq.gz" file
    then snd acc ++ [location registry batch p file]
    else snd acc in
  (fq1, fq2).

(** The body of [for p in packages]. *)
Definition package_step (registry batch : string) (st : Lists) (p : string)
  : M Lists :=
  if str_in batch p then
    pkg <- browse p registry ;;
    cell_line <- lift (getitem (meta pkg) "CellLine") ;;
    sample_prefix <- lift (add_str cell_line "__") ;;
    let samples' := samples st ++ [sample_prefix +:+ stripped p] in
    let pkg_files := keys pkg in
    let fq :=
      fold_left (file_step registry batch p) pkg_files (fastq1 st, fastq2 st) in
    ret (mkLists samples' (fst fq) (snd fq))
  else ret st.

Fixpoint for_packages (registry batch : string) (st : Lists)
    (packages : list string) : M Lists :=
  match packages with
  | [] => ret st
  | p :: rest =>
      st' <- package_step registry batch st p ;;
      for_packages registry batch st' rest
  end.

(** Cell 4 as a whole: the lists start empty. *)
Definition collect (registry batch : string) (packages : list string)
  : M Lists :=
  for_packages registry batch (mkLists [] [] []) packages.

(** Cell 5: the frame of the three lists, then the constant column at the
    end ([sample_sheet.shape[1]] is the number of columns). *)
Definition create_sample_sheet (l : Lists) : result DataFrame :=
  match
    DataFrame_of_dict
      [("sample", samples l); ("fastq_1", fastq1 l); ("fastq_2", fastq2 l)]
  with
  | Ok sample_sheet =>
      insert sample_sheet (snd (shape sample_sheet)) "strandedness" "auto"
  | Raise e => Raise e
  end.

(** Cells 4 and 5 in sequence. *)
Definition build_sample_sheet (registry batch : string)
    (packages : list string) : M DataFrame :=
  l <- collect registry batch packages ;;
  lift (create_sample_sheet l).

Definition outpath : string := "~/data/nfcore".

(** [batch.replace("ccle/", "") + "__samplesheet.csv"] *)
Definition sheet_name (batch : string) : string :=
  str_replace batch "ccle/" "" +:+ "__samplesheet.csv".

(** Cell 6: the path of the local file and the text written to it. *)
Definition save_sample_sheet (pf : Platform) (batch : string)
    (sample_sheet : DataFrame) : string * string :=
  ((outpath +:+ "/") +:+ sheet_name batch,
   to_csv sample_sheet false (linesep pf)).

(** Cell 7: a new package with the file as its only entry, pushed under a
    fixed name to a fixed registry. *)
Definition upload_sample_sheet (batch : string) : M unit :=
  let pname := "ccle/20190225_PRJNA523380_nfcore_rnaseq" in
  let p := mkPackage ∅ [] in
  let p := set p (sheet_name batch) ((outpath +:+ "/") +:+ sheet_name batch) in
  push p pname "s3://quilt-example-bucket".

End Notebook.

Export Notebook.

(** ** Reading a sample sheet back

    The notebook writes the sample sheet and never reads it.  The reader
    below is the one the round trip of the spec needs; it follows the
    description of the flat file in the spec. *)

Module Reader.

(** The states of the reader: before the first character of a record,
    before the first character of a later field, inside a bare field,
    inside a quoted field, just after a quote met inside a quoted field,
    and after the first character of a two-character line terminator. *)
Inductive pstate : Type :=
| StartRecord
| StartField
| InField
| InQuoted
| QuoteInQuoted
| AfterCR.

(** The reader at work: the characters of the field being read, last one
    first; the fields of the record being read, last one first; the
    records read, last one first. *)
Record Parser : Type := mkParser {
  state : pstate;
  field : list ascii;
  record : list string;
  records : list (list string)
}.

Definition text_of (chars : list ascii) : string :=
  string_of_list_ascii (rev chars).

Definition add_char (st : pstate) (c : ascii) (ps : Parser) : Parser :=
  mkParser st (c :: field ps) (record ps) (records ps).

Definition end_field (ps : Parser) : Parser :=
  mkParser StartField [] (text_of (field ps) :: record ps) (records ps).

(** A line terminator read before anything else of a record closes an
    empty record. *)
Definition close_record (ps : Parser) : list (list string) :=
  match state ps with
  | StartRecord => []
  | _ => rev (text_of (field ps) :: record ps)
  end :: records ps.

(** Modelled from the spec: a character met outside quotes; fields end at
    the comma, records at the line terminator of the platform. *)
Definition outside (pf : Platform) (ps : Parser) (c : ascii) : Parser :=
  if Ascii.eqb c delimiter then end_field ps
  else
    match pf with
    | Posix =>
        if Ascii.eqb c LF then mkParser StartRecord [] [] (close_record ps)
        else add_char InField c ps
    | Windows =>
        if Ascii.eqb c CR then mkParser AfterCR [] [] (close_record ps)
        else add_char InField c ps
    end.

(** Modelled from the spec: one character read by the reader of the flat
    file (the notebook has no reader). *)
Definition step (pf : Platform) (ps : Parser) (c : ascii) : option Parser :=
  match state ps with
  | StartRecord | StartField =>
      if Ascii.eqb c quotechar
      then Some (mkParser InQuoted (field ps) (record ps) (records ps))
      else Some (outside pf ps c)
  | InField => Some (outside pf ps c)
  | InQuoted =>
      if Ascii.eqb c quotechar
      then Some (mkParser QuoteInQuoted (field ps) (record ps) (records ps))
      else Some (add_char InQuoted c ps)
  | QuoteInQuoted =>
      if Ascii.eqb c quotechar then Some (add_char InQuoted c ps)
      else Some (outside pf ps c)
  | AfterCR =>
      if Ascii.eqb c LF
      then Some (mkParser StartRecord [] [] (records ps))
      else None
  end.

(** Modelled from the spec: at the end of the text a last record without
    line terminator is kept; an open quote or half a line terminator is an
    error. *)
Definition finish (ps : Parser) : option (list (list string)) :=
  match state ps with
  | StartRecord => Some (rev (records ps))
  | InQuoted | AfterCR => None
  | _ => Some (rev (close_record ps))
  end.

(** Modelled from the spec: the reader run over a text. *)
Fixpoint run (pf : Platform) (ps : Parser) (text : string)
  : option (list (list string)) :=
  match text with
  | EmptyString => finish ps
  | String c rest =>
      match step pf ps c with
      | Some ps' => run pf ps' rest
      | None => None
      end
  end.

(** Modelled from the spec: the records of a text. *)
Definition parse (pf : Platform) (text : string)
  : option (list (list string)) :=
  run pf (mkParser StartRecord [] [] []) text.

(** Modelled from the spec: the notebook only writes the sample sheet; the
    reader of the round trip is missing from it.  This one reads the flat
    file the spec describes: comma-delimited records ended by the line
    terminator of the platform, quoted fields with doubled quotes, a
    header record with the column labels, no index column.  Every cell is
    kept as text, and every record must have as many fields as the
    header. *)
Definition read_csv (pf : Platform) (text : string) : option DataFrame :=
  match parse pf text with
  | Some (header :: data) =>
      if forallb (fun r => length r =? length header)%nat data
      then
        Some (mkDataFrame (length data)
                (map (fun j => (nth j header "", map (fun r => nth j r "") data))
                   (seq 0 (length header))))
      else None
  | _ => None
  end.

End Reader.

Export Reader.

(** ** Vocabulary of the statements *)

(** The identifiers the loop processes: those that hold the batch string. *)
Definition matching (batch : string) (packages : list string) : list string :=
  List.filter (str_in batch) packages.

(** The package a successful [browse] returns. *)
Definition package_at (w : Registries) (registry name : string)
  : option Package :=
  match w !! registry with
  | Some reg => reg !! name
  | None => None
  end.

(** The member files of a package that pass a read test. *)
Definition reads (suffix : string) (pkg : Package) : list string :=
  List.filter (str_in suffix) (keys pkg).

Definition forward_reads : Package -> list string := reads "_1.fastq.gz".
Definition reverse_reads : Package -> list string := reads "_2.fastq.gz".

(** The string value of the [CellLine] metadata, when there is one. *)
Definition cell_line (pkg : Package) : option string :=
  match meta pkg !! "CellLine" with
  | Some (JStr s) => Some s
  | _ => None
  end.

(** What the loop reads of a package: the [CellLine] value and the member
    files. *)
Definition view (pkg : Package) : option json * list string :=
  (meta pkg !! "CellLine", keys pkg).

(** The sample name the loop derives for an identifier. *)
Definition sample_id (cl p : string) : string := (cl +:+ "__") +:+ stripped p.

(** The cells of a column, by label. *)
Definition column (df : DataFrame) (label : string) : option (list string) :=
  match List.find (fun col => String.eqb (fst col) label) (columns df) with
  | Some col => Some (snd col)
  | None => None
  end.

(** The frame whose records are the given sample records. *)
Definition sheet_of (recs : list (string * string * string)) : DataFrame :=
  mkDataFrame (length recs)
    [("sample", map (fun r => fst (fst r)) recs);
     ("fastq_1", map (fun r => snd (fst r)) recs);
     ("fastq_2", map snd recs);
     ("strandedness", repeat "auto" (length recs))].

(** The loop as a fold without state: what one processed identifier adds
    to the three lists, or the exception it raises. *)
Definition contribution (w : Registries) (registry batch p : string)
  : result Lists :=
  match package_at w registry p with
  | None => Raise RegistryAccessError
  | Some pkg =>
      match meta pkg !! "CellLine" with
      | None => Raise (KeyError "CellLine")
      | Some (JStr cl) =>
          Ok (mkLists [sample_id cl p]
                (map (location registry batch p) (forward_reads pkg))
                (map (location registry batch p) (reverse_reads pkg)))
      | Some _ => Raise TypeError
      end
  end.

Definition append_lists (a b : Lists) : Lists :=
  mkLists (samples a ++ samples b) (fastq1 a ++ fastq1 b)
    (fastq2 a ++ fastq2 b).

Fixpoint gather (w : Registries) (registry batch : string) (st : Lists)
    (ps : list string) : result Lists :=
  match ps with
  | [] => Ok st
  | p :: rest =>
      match contribution w registry batch p with
      | Ok c => gather w registry batch (append_lists st c) rest
      | Raise e => Raise e
      end
  end.

(** An identifier whose package can be browsed and has a string [CellLine]. *)
Definition readable (w : Registries) (registry p : string) : Prop :=
  exists pkg cl, package_at w registry p = Some pkg /\ cell_line pkg = Some cl.

(** A readable identifier with exactly one forward and one reverse read,
    and the sample record the formula gives for it. *)
Definition paired_record (w : Registries) (registry batch p : string)
    (rec : string * string * string) : Prop :=
  exists pkg cl f1 f2,
    package_at w registry p = Some pkg /\ cell_line pkg = Some cl /\
    forward_reads pkg = [f1] /\ reverse_reads pkg = [f2] /\
    rec = (sample_id cl p, location registry batch p f1,
           location registry batch p f2).

(** The number of member files of an identifier's package that pass a read
    test. *)
Definition read_count (suffix : string) (w : Registries) (registry p : string)
  : nat :=
  match package_at w registry p with
  | Some pkg => length (reads suffix pkg)
  | None => 0
  end.

Definition total_reads (suffix : string) (w : Registries) (registry : string)
    (ps : list string) : nat :=
  list_sum (map (read_count suffix w registry) ps).


(** A frame whose columns all have one cell per row. *)
Definition well_formed (df : DataFrame) : Prop :=
  Forall (fun col => length (snd col) = nrows df) (columns df).

(** The states in which a field may begin. *)
Definition at_start (st : pstate) : Prop := st = StartRecord \/ st = StartField.

(** A field has been read in full: the parser holds its text. *)
Definition holds (ps : Parser) (s : string) : Prop :=
  (state ps = StartField /\ field ps = [] /\ s = "") \/
  (state ps = InField /\ field ps = rev (list_ascii_of_string s)) \/
  (state ps = QuoteInQuoted /\ field ps = rev (list_ascii_of_string s)).

(** ** Registries used as examples *)

Module Fixtures.

(** A raw-data package: a [CellLine] value and member files. *)
Definition raw_package (cl : string) (files : list string) : Package :=
  mkPackage {[ "CellLine" := JStr cl ]}
    (map (fun f => (f, "s3://raw/" +:+ f)) files).

(** The fixture of the spec: registry [s3://bkt], one package. *)
Definition spec_fixture : Registries :=
  {[ "s3://bkt" :=
       {[ "proj/b1_s1" := raw_package "HELA" ["s1_1.fastq.gz"; "s1_2.fastq.gz"] ]} ]}.

Definition bucket : string := "s3://quilt-example-bucket".
Definition batch0 : string := "ccle/20190225_PRJNA523380".

Definition s1 : string := "ccle/20190225_PRJNA523380_s1".
Definition s2 : string := "ccle/20190225_PRJNA523380_s2".
Definition s1_again : string :=
  "ccle/20190225_PRJNA523380_ccle/20190225_PRJNA523380_s1".
Definition no_reads : string := "ccle/20190225_PRJNA523380_e".
Definition no_forward : string := "ccle/20190225_PRJNA523380_z".
Definition two_forward : string := "ccle/20190225_PRJNA523380_d".
Definition both_tests : string := "ccle/20190225_PRJNA523380_x".
Definition other_batch : string := "ccle/20180101_PRJNA000000_s9".

Definition demo : Registries :=
  {[ bucket :=
       <[ s1 := raw_package "HELA" ["s1_1.fastq.gz"; "s1_2.fastq.gz"] ]>
       (<[ s2 := raw_package "K562" ["s2_1.fastq.gz"; "s2_2.fastq.gz"] ]>
       (<[ s1_again := raw_package "HELA" ["t_1.fastq.gz"; "t_2.fastq.gz"] ]>
       (<[ no_reads := raw_package "A549" ["README.md"] ]>
       (<[ no_forward := raw_package "A549" ["z_2.fastq.gz"] ]>
       (<[ two_forward :=
             raw_package "MCF7"
               ["d_1.fastq.gz"; "dd_1.fastq.gz"; "d_2.fastq.gz"] ]>
       (<[ both_tests := raw_package "U2OS" ["x_1.fastq.gz_2.fastq.gz"] ]>
       (<[ other_batch := raw_package "HEPG2" ["s9_1.fastq.gz"; "s9_2.fastq.gz"] ]>
        ∅))))))) ]}.

(** Registries that differ from [demo] in what the loop does not read:
    the physical locations and other metadata of [s1] and [s2], and the
    packages of the other batch. *)
Definition demo_elsewhere : Registries :=
  {[ bucket :=
       <[ s1 :=
            mkPackage (<[ "Tissue" := JStr "cervix" ]> {[ "CellLine" := JStr "HELA" ]})
              [("s1_1.fastq.gz", "s3://mirror/a"); ("s1_2.fastq.gz", "s3://mirror/b")] ]>
       (<[ s2 := raw_package "K562" ["s2_1.fastq.gz"; "s2_2.fastq.gz"] ]> ∅) ]}.

End Fixtures.

(** The locations the loop appends for an identifier under a read test. *)
Definition locations (suffix : string) (w : Registries)
    (registry batch p : string) : list string :=
  match package_at w registry p with
  | Some pkg => map (location registry batch p) (reads suffix pkg)
  | None => []
  end.

(** The name cell 7 pushes the sample sheet under, and the registry it
    pushes to. *)
Definition pname : string := "ccle/20190225_PRJNA523380_nfcore_rnaseq".

(** Registries with packages the loop cannot process. *)

Module Faulty.

Definition no_cell_line : string := "ccle/20190225_PRJNA523380_k".
Definition numeric_cell_line : string := "ccle/20190225_PRJNA523380_n".
Definition absent : string := "ccle/20190225_PRJNA523380_gone".

Definition registries : Registries :=
  {[ Fixtures.bucket :=
       <[ Fixtures.s1 :=
            Fixtures.raw_package "HELA" ["s1_1.fastq.gz"; "s1_2.fastq.gz"] ]>
       (<[ no_cell_line :=
             mkPackage {[ "Tissue" := JStr "lung" ]}
               [("k_1.fastq.gz", "s3://raw/k1"); ("k_2.fastq.gz", "s3://raw/k2")] ]>
       (<[ numeric_cell_line :=
             mkPackage {[ "CellLine" := JNum 7 ]}
               [("n_1.fastq.gz", "s3://raw/n1"); ("n_2.fastq.gz", "s3://raw/n2")] ]>
        ∅)) ]}.

End Faulty.

(** * Properties *)

#[local] Arguments String.append : simpl nomatch.

(** ** Strings and lists *)

Lemma append_assoc (a b c : string) : (a +:+ b) +:+ c = a +:+ (b +:+ c).
Proof.
  induction a as [|x a IH]; cbn [append]; [reflexivity | now f_equal].
Qed.

Lemma append_empty_r (a : string) : a +:+ "" = a.
Proof.
  induction a as [|x a IH]; cbn [append]; [reflexivity | now f_equal].
Qed.

Lemma concat_cons (x : string) (l : list string) :
  String.concat "" (x :: l) = x +:+ String.concat "" l.
Proof. destruct l; cbn; [now rewrite append_empty_r | reflexivity]. Qed.

Lemma map_nth_seq {A} (l : list A) (d : A) :
  map (fun i => nth i l d) (seq 0 (length l)) = l.
Proof.
  induction l as [|x l IH]; [reflexivity|].
  cbn [length seq map nth]. rewrite <- seq_shift, map_map. cbn [nth].
  now rewrite IH.
Qed.

Lemma nth_map_lt {A B} (f : A -> B) (l : list A) (d : A) (d' : B) (j : nat) :
  j < length l -> nth j (map f l) d' = f (nth j l d).
Proof.
  intros H. rewrite (nth_indep _ d' (f d)) by now rewrite length_map.
  apply map_nth.
Qed.

(** ** The reader undoes the writer *)

Section RoundTrip.

Variable pf : Platform.

Lemma outside_bare (ps : Parser) (c : ascii) :
  special (linesep pf) c = false -> outside pf ps c = add_char InField c ps.
Proof.
  unfold special, outside. intros H.
  apply orb_false_iff in H as [H Hls]. apply orb_false_iff in H as [-> Hq].
  destruct pf; cbn in Hls.
  - apply orb_false_iff in Hls as [-> _]. reflexivity.
  - apply orb_false_iff in Hls as [-> _]. reflexivity.
Qed.

Lemma bare_not_quote (c : ascii) :
  special (linesep pf) c = false -> Ascii.eqb c quotechar = false.
Proof.
  unfold special. intros H.
  apply orb_false_iff in H as [H _]. now apply orb_false_iff in H as [_ ->].
Qed.

Lemma run_bare (s rest : string) (f : list ascii) (r : list string)
    (rs : list (list string)) :
  needs_quoting (linesep pf) s = false ->
  run pf (mkParser InField f r rs) (s +:+ rest) =
  run pf (mkParser InField (rev (list_ascii_of_string s) ++ f) r rs) rest.
Proof.
  revert f. induction s as [|c s IH]; intros f H; [reflexivity|].
  cbn [needs_quoting] in H. apply orb_false_iff in H as [Hc Hs].
  cbn [append run step state]. rewrite (outside_bare _ _ Hc).
  unfold add_char. cbn [field record records]. rewrite IH by assumption.
  cbn [list_ascii_of_string rev]. now rewrite <- app_assoc.
Qed.

Lemma run_bare_start (st : pstate) (c : ascii) (s rest : string)
    (r : list string) (rs : list (list string)) :
  at_start st -> needs_quoting (linesep pf) (String c s) = false ->
  run pf (mkParser st [] r rs) (String c s +:+ rest) =
  run pf (mkParser InField (rev (list_ascii_of_string (String c s))) r rs) rest.
Proof.
  intros Hst H. cbn [needs_quoting] in H. apply orb_false_iff in H as [Hc Hs].
  cbn [append run].
  assert (E : step pf (mkParser st [] r rs) c =
              Some (mkParser InField [c] r rs)).
  { destruct Hst as [-> | ->]; cbn [step state];
      rewrite (bare_not_quote _ Hc), (outside_bare _ _ Hc); reflexivity. }
  rewrite E, run_bare by assumption. reflexivity.
Qed.

Lemma run_quoted_body (s rest : string) (f : list ascii) (r : list string)
    (rs : list (list string)) :
  run pf (mkParser InQuoted f r rs)
    (double_quotes s +:+ String quotechar rest) =
  run pf (mkParser QuoteInQuoted (rev (list_ascii_of_string s) ++ f) r rs) rest.
Proof.
  revert f. induction s as [|c s IH]; intros f; [reflexivity|].
  cbn [double_quotes list_ascii_of_string rev].
  rewrite <- app_assoc. cbn [app].
  destruct (Ascii.eqb_spec c quotechar) as [->|Hc].
  - cbn [append run step state]. rewrite Ascii.eqb_refl.
    cbn [step state]. rewrite Ascii.eqb_refl. apply IH.
  - cbn [append run step state].
    destruct (Ascii.eqb_spec c quotechar) as [?|_]; [contradiction|].
    apply IH.
Qed.

Lemma run_quoted (st : pstate) (s rest : string) (r : list string)
    (rs : list (list string)) :
  at_start st ->
  run pf (mkParser st [] r rs) (quoted s +:+ rest) =
  run pf (mkParser QuoteInQuoted (rev (list_ascii_of_string s)) r rs) rest.
Proof.
  intros Hst. unfold quoted. cbn [append]. rewrite append_assoc. cbn [append].
  cbn [run].
  assert (E : step pf (mkParser st [] r rs) quotechar =
              Some (mkParser InQuoted [] r rs)).
  { destruct Hst as [-> | ->]; reflexivity. }
  rewrite E, run_quoted_body. now rewrite app_nil_r.
Qed.

Lemma holds_text (ps : Parser) (s : string) :
  holds ps s -> text_of (field ps) = s /\ state ps <> StartRecord /\
                state ps <> InQuoted /\ state ps <> AfterCR.
Proof.
  unfold text_of.
  intros [(E & -> & ->) | [(E & ->) | (E & ->)]]; rewrite E;
    rewrite ?rev_involutive, ?string_of_list_ascii_of_string;
    repeat split; congruence.
Qed.

Lemma run_delimiter (ps : Parser) (s rest : string) :
  holds ps s ->
  run pf ps (String delimiter rest) =
  run pf (mkParser StartField [] (s :: record ps) (records ps)) rest.
Proof.
  intros H. destruct (holds_text _ _ H) as (Ht & _).
  cbn [run].
  assert (E : step pf ps delimiter = Some (end_field ps)).
  { destruct H as [(E & _) | [(E & _) | (E & _)]]; unfold step; rewrite E;
      reflexivity. }
  rewrite E. unfold end_field. now rewrite Ht.
Qed.

Lemma run_linesep (ps : Parser) (rest : string) :
  state ps <> InQuoted -> state ps <> AfterCR ->
  run pf ps ((linesep pf) +:+ rest) =
  run pf (mkParser StartRecord [] [] (close_record ps)) rest.
Proof.
  intros H1 H2.
  destruct pf; cbn [linesep append run];
    destruct ps as [st f r rs]; cbn [state] in *;
    destruct st; try contradiction; reflexivity.
Qed.

Lemma run_linesep_holds (ps : Parser) (s rest : string) :
  holds ps s ->
  run pf ps ((linesep pf) +:+ rest) =
  run pf (mkParser StartRecord [] [] (rev (s :: record ps) :: records ps)) rest.
Proof.
  intros H. destruct (holds_text _ _ H) as (Ht & H0 & H1 & H2).
  rewrite run_linesep by assumption. unfold close_record. rewrite Ht.
  destruct (state ps); try contradiction; reflexivity.
Qed.

(** Reading a written field leaves the parser holding it; an empty field
    at the start of a record is the one case apart. *)
Lemma run_write_field (st : pstate) (s rest : string) (r : list string)
    (rs : list (list string)) :
  at_start st -> (st = StartRecord -> s <> "") ->
  exists ps, holds ps s /\ record ps = r /\ records ps = rs /\
    run pf (mkParser st [] r rs) (write_field (linesep pf) s +:+ rest) = run pf ps rest.
Proof.
  intros Hst Hne. unfold write_field.
  destruct (needs_quoting (linesep pf) s) eqn:Q.
  - eexists. split; [|split; [|split; [|now apply run_quoted]]];
      [right; right; split; reflexivity | reflexivity | reflexivity].
  - destruct s as [|c s].
    + destruct Hst as [-> | ->]; [now contradiction Hne|].
      exists (mkParser StartField [] r rs). repeat split. now left.
    + eexists. split; [|split; [|split; [|now apply run_bare_start]]];
        [right; left; split; reflexivity | reflexivity | reflexivity].
Qed.

Lemma run_field_delimiter (st : pstate) (s rest : string) (r : list string)
    (rs : list (list string)) :
  at_start st ->
  run pf (mkParser st [] r rs)
    (write_field (linesep pf) s +:+ String delimiter rest) =
  run pf (mkParser StartField [] (s :: r) rs) rest.
Proof.
  intros Hst.
  destruct (String.eqb_spec s "") as [-> | Hs].
  - destruct Hst as [-> | ->]; reflexivity.
  - destruct (run_write_field st s (String delimiter rest) r rs Hst)
      as (ps & H & <- & <- & ->); [easy|].
    now apply run_delimiter.
Qed.

Lemma run_field_linesep (s rest : string) (r : list string)
    (rs : list (list string)) :
  run pf (mkParser StartField [] r rs) (write_field (linesep pf) s +:+ (linesep pf) +:+ rest) =
  run pf (mkParser StartRecord [] [] (rev (s :: r) :: rs)) rest.
Proof.
  destruct (run_write_field StartField s ((linesep pf) +:+ rest) r rs)
    as (ps & H & <- & <- & ->); [now right | discriminate |].
  now apply run_linesep_holds.
Qed.

Lemma run_fields (x : string) (tl : list string) (rest : string)
    (r : list string) (rs : list (list string)) :
  run pf (mkParser StartField [] r rs)
    (String.concat "," (map (write_field (linesep pf)) (x :: tl)) +:+ (linesep pf) +:+ rest) =
  run pf (mkParser StartRecord [] [] (rev (rev (x :: tl) ++ r) :: rs)) rest.
Proof.
  revert x r. induction tl as [|y tl IH]; intros x r.
  - cbn [map String.concat rev app]. apply run_field_linesep.
  - change (String.concat "," (map (write_field (linesep pf)) (x :: y :: tl)))
      with (write_field (linesep pf) x +:+ "," +:+
            String.concat "," (map (write_field (linesep pf)) (y :: tl))).
    rewrite !append_assoc. cbn [append].
    rewrite run_field_delimiter by now right.
    rewrite IH. cbn [rev]. now rewrite <- !app_assoc.
Qed.

Lemma run_writerow (fields : list string) (rest : string)
    (rs : list (list string)) :
  run pf (mkParser StartRecord [] [] rs) (writerow (linesep pf) fields +:+ rest) =
  run pf (mkParser StartRecord [] [] (fields :: rs)) rest.
Proof.
  unfold writerow. rewrite append_assoc.
  destruct fields as [|x [|y tl]].
  - cbn [map String.concat append]. now rewrite run_linesep.
  - destruct x as [|c x].
    + rewrite run_quoted by now left.
      now rewrite run_linesep.
    + cbn [map String.concat].
      destruct (run_write_field StartRecord (String c x) ((linesep pf) +:+ rest) [] rs)
        as (ps & H & Hr & Hrs & ->); [now left | easy |].
      now rewrite (run_linesep_holds _ _ _ H), Hr, Hrs.
  - replace (match x :: y :: tl with
             | [EmptyString] => quoted ""
             | _ => String.concat "," (map (write_field (linesep pf)) (x :: y :: tl))
             end)
      with (write_field (linesep pf) x +:+ "," +:+
            String.concat "," (map (write_field (linesep pf)) (y :: tl)))
      by now destruct x.
    rewrite !append_assoc. cbn [append].
    rewrite run_field_delimiter by now left.
    rewrite run_fields. cbn [rev]. rewrite <- app_assoc. cbn [app].
    now rewrite rev_app_distr, rev_involutive.
Qed.

Lemma run_records (recs rs : list (list string)) :
  run pf (mkParser StartRecord [] [] rs)
    (String.concat "" (map (writerow (linesep pf)) recs)) =
  Some (rev rs ++ recs).
Proof.
  revert rs. induction recs as [|fields recs IH]; intros rs.
  - cbn. now rewrite app_nil_r.
  - cbn [map]. rewrite concat_cons, run_writerow, IH. cbn [rev].
    now rewrite <- app_assoc.
Qed.

Lemma parse_to_csv (df : DataFrame) :
  parse pf (to_csv df false (linesep pf)) = Some (labels df :: rows df).
Proof. unfold parse, to_csv. cbn [app]. apply run_records. Qed.

End RoundTrip.

(** ** Rows and columns *)

Lemma length_rows (df : DataFrame) : length (rows df) = nrows df.
Proof. unfold rows. now rewrite length_map, length_seq. Qed.

Lemma length_row (df : DataFrame) (i : nat) :
  length (row df i) = length (labels df).
Proof. unfold row, labels. now rewrite !length_map. Qed.

Lemma columns_of_rows (df : DataFrame) :
  well_formed df ->
  map (fun j => (nth j (labels df) "", map (fun r => nth j r "") (rows df)))
    (seq 0 (length (labels df))) = columns df.
Proof.
  intros Hwf. unfold labels, rows, row. rewrite length_map.
  transitivity
    (map (fun j => nth j (columns df) ("", [])) (seq 0 (length (columns df))));
    [|apply map_nth_seq].
  apply map_ext_in. intros j Hj. apply in_seq in Hj as [_ Hj]. cbn in Hj.
  rewrite (nth_map_lt fst _ ("", [])) by assumption.
  rewrite map_map.
  assert (Hlen : length (snd (nth j (columns df) ("", []))) = nrows df).
  { unfold well_formed in Hwf. rewrite List.Forall_forall in Hwf.
    apply Hwf. now apply nth_In. }
  rewrite <- Hlen.
  rewrite (map_ext _ (fun i => nth i (snd (nth j (columns df) ("", []))) ""))
    by (intros i;
        now apply (nth_map_lt (fun col => nth i (snd col) "") _ ("", []))).
  rewrite map_nth_seq. now destruct (nth j (columns df) ("", [])).
Qed.

Lemma read_csv_to_csv (pf : Platform) (df : DataFrame) :
  well_formed df -> read_csv pf (to_csv df false (linesep pf)) = Some df.
Proof.
  intros Hwf. unfold read_csv. rewrite parse_to_csv.
  assert (E : forallb (fun r => (length r =? length (labels df))%nat) (rows df)
              = true).
  { apply forallb_forall. intros r Hr. unfold rows in Hr.
    apply in_map_iff in Hr as (i & <- & _).
    rewrite length_row. apply Nat.eqb_refl. }
  rewrite E, length_rows, columns_of_rows by assumption.
  now destruct df.
Qed.

Lemma sheet_of_well_formed (recs : list (string * string * string)) :
  well_formed (sheet_of recs).
Proof.
  unfold well_formed, sheet_of. cbn [columns nrows].
  repeat constructor; cbn [snd]; now rewrite ?length_map, ?repeat_length.
Qed.

Lemma rows_sheet_of (recs : list (string * string * string)) :
  rows (sheet_of recs) =
  map (fun r => [fst (fst r); snd (fst r); snd r; "auto"]) recs.
Proof.
  unfold rows, row, sheet_of. cbn [nrows columns map snd].
  transitivity
    (map (fun r => [fst (fst r); snd (fst r); snd r; "auto"])
       (map (fun i => nth i recs ("", "", "")) (seq 0 (length recs))));
    [|now rewrite map_nth_seq].
  rewrite map_map. apply map_ext_in. intros i Hi.
  apply in_seq in Hi as [_ Hi]. cbn in Hi.
  rewrite !(nth_map_lt _ _ ("", "", "")) by assumption.
  now rewrite (nth_repeat_lt _ _ Hi).
Qed.

Lemma sheet_of_combine (s fq1 fq2 : list string) :
  length fq1 = length s -> length fq2 = length s ->
  mkDataFrame (length s)
    [("sample", s); ("fastq_1", fq1); ("fastq_2", fq2);
     ("strandedness", repeat "auto" (length s))] =
  sheet_of (combine (combine s fq1) fq2).
Proof.
  intros H1 H2. unfold sheet_of.
  assert (Hc : forall {A B} (a : list A) (b : list B),
             length b = length a ->
             map fst (combine a b) = a /\ map snd (combine a b) = b /\
             length (combine a b) = length a).
  { intros A B a. induction a as [|x a IH]; intros [|y b] Hl;
      try discriminate; [easy|].
    cbn in Hl. injection Hl as Hl. destruct (IH b Hl) as (E1 & E2 & E3).
    cbn. now rewrite E1, E2, E3. }
  destruct (Hc _ _ s fq1 H1) as (E1 & E2 & E3).
  destruct (Hc _ _ (combine s fq1) fq2) as (E4 & E5 & E6); [congruence|].
  rewrite E6, E3.
  rewrite <- (map_map fst fst), <- (map_map fst snd), E4, E1, E2, E5.
  reflexivity.
Qed.


(** ** The loop is a fold over the matching identifiers *)

Section Loop.

Variables (registry batch : string).

Lemma fold_file_step (p : string) (files fq1 fq2 : list string) :
  fold_left (file_step registry batch p) files (fq1, fq2) =
  (fq1 ++ map (location registry batch p) (List.filter (str_in "_1.fastq.gz") files),
   fq2 ++ map (location registry batch p) (List.filter (str_in "_2.fastq.gz") files)).
Proof.
  revert fq1 fq2.
  induction files as [|file files IH]; intros fq1 fq2.
  - cbn [fold_left List.filter map]. now rewrite !app_nil_r.
  - cbn [fold_left List.filter]. unfold file_step at 2. cbn [fst snd].
    rewrite IH.
    destruct (str_in "_1.fastq.gz" file), (str_in "_2.fastq.gz" file);
      cbn [map]; rewrite <- ?app_assoc; reflexivity.
Qed.

Lemma package_step_contribution (st : Lists) (p : string) (w : Registries) :
  package_step registry batch st p w =
  (if str_in batch p
   then match contribution w registry batch p with
        | Ok c => Ok (append_lists st c)
        | Raise e => Raise e
        end
   else Ok st, w).
Proof.
  unfold package_step, contribution, package_at.
  destruct (str_in batch p); [|reflexivity].
  unfold bind, browse, lift, ret, getitem.
  destruct (w !! registry) as [reg|]; [|reflexivity].
  destruct (reg !! p) as [pkg|]; [|reflexivity].
  destruct (meta pkg !! "CellLine") as [v|]; [destruct v as [cl| | | |]|];
    try reflexivity.
  cbn [add_str]. unfold keys. rewrite fold_file_step. reflexivity.
Qed.

Lemma for_packages_gather (packages : list string) (st : Lists) (w : Registries) :
  for_packages registry batch st packages w =
  (gather w registry batch st (matching batch packages), w).
Proof.
  revert st. induction packages as [|p rest IH]; intros st.
  - reflexivity.
  - cbn [for_packages]. unfold bind. rewrite package_step_contribution.
    unfold matching. cbn [List.filter].
    destruct (str_in batch p).
    + cbn [gather]. destruct (contribution w registry batch p) as [c|e].
      * apply IH.
      * reflexivity.
    + apply IH.
Qed.

Lemma matching_idempotent (packages : list string) :
  matching batch (matching batch packages) = matching batch packages.
Proof.
  unfold matching. induction packages as [|p rest IH]; [reflexivity|].
  cbn [List.filter]. destruct (str_in batch p) eqn:E; [|exact IH].
  cbn [List.filter]. rewrite E. now rewrite IH.
Qed.

Lemma matching_in (packages : list string) (p : string) :
  In p (matching batch packages) <-> In p packages /\ str_in batch p = true.
Proof. unfold matching. apply filter_In. Qed.

Lemma contribution_ok (w : Registries) (p : string) (c : Lists) :
  contribution w registry batch p = Ok c <->
  exists pkg cl,
    package_at w registry p = Some pkg /\ cell_line pkg = Some cl /\
    c = mkLists [sample_id cl p]
          (map (location registry batch p) (forward_reads pkg))
          (map (location registry batch p) (reverse_reads pkg)).
Proof.
  unfold contribution, cell_line. split.
  - destruct (package_at w registry p) as [pkg|]; [|discriminate].
    destruct (meta pkg !! "CellLine") as [v|] eqn:E; [destruct v as [cl| | | |]|];
      try discriminate.
    intros [= <-]. exists pkg, cl. now rewrite E.
  - intros (pkg & cl & -> & Hcl & ->).
    destruct (meta pkg !! "CellLine") as [v|]; [destruct v as [s| | | |]|];
      try discriminate.
    now injection Hcl as ->.
Qed.

Lemma gather_from (w : Registries) (st : Lists) (ps : list string) :
  gather w registry batch st ps =
  match gather w registry batch (mkLists [] [] []) ps with
  | Ok l => Ok (append_lists st l)
  | Raise e => Raise e
  end.
Proof.
  revert st. induction ps as [|p rest IH]; intros st.
  - cbn [gather]. unfold append_lists. cbn [samples fastq1 fastq2].
    rewrite !app_nil_r. now destruct st.
  - cbn [gather]. destruct (contribution w registry batch p) as [c|e]; [|reflexivity].
    rewrite IH. rewrite (IH (append_lists _ c)).
    destruct (gather w registry batch _ rest) as [l|e]; [|reflexivity].
    unfold append_lists. cbn [samples fastq1 fastq2 app].
    now rewrite !app_assoc.
Qed.

Lemma gather_lengths (w : Registries) (ps : list string) (st l : Lists) :
  gather w registry batch st ps = Ok l ->
  length (samples l) = length (samples st) + length ps /\
  length (fastq1 l) =
    length (fastq1 st) + total_reads "_1.fastq.gz" w registry ps /\
  length (fastq2 l) =
    length (fastq2 st) + total_reads "_2.fastq.gz" w registry ps.
Proof.
  revert st. induction ps as [|p rest IH]; intros st.
  - cbn [gather]. intros [= <-]. unfold total_reads. cbn. lia.
  - cbn [gather]. destruct (contribution w registry batch p) as [c|e] eqn:E;
      [|discriminate].
    apply contribution_ok in E as (pkg & cl & Hp & _ & ->).
    intros H. apply IH in H. unfold total_reads in *.
    cbn [map list_sum length]. unfold read_count at 1 3. rewrite Hp.
    unfold append_lists in H. cbn [samples fastq1 fastq2] in H.
    rewrite !length_app, !length_map in H. cbn [length] in H.
    unfold forward_reads, reverse_reads in H.
    unfold list_sum in *. cbn [fold_right]. lia.
Qed.

Lemma gather_readable (w : Registries) (ps : list string) (st : Lists) :
  (exists l, gather w registry batch st ps = Ok l) <->
  Forall (readable w registry) ps.
Proof.
  revert st. induction ps as [|p rest IH]; intros st.
  - split; [constructor | intros _; now exists st].
  - cbn [gather]. split.
    + intros [l H].
      destruct (contribution w registry batch p) as [c|e] eqn:E; [|discriminate].
      constructor.
      * apply contribution_ok in E as (pkg & cl & ? & ? & _). now exists pkg, cl.
      * apply (IH (append_lists st c)). now exists l.
    + intros H. inversion H as [|? ? (pkg & cl & Hp & Hcl) Hrest]; subst.
      destruct (contribution w registry batch p) as [c|e] eqn:E.
      * now apply IH.
      * assert (Hc : exists c, contribution w registry batch p = Ok c).
        { eexists. apply contribution_ok. now exists pkg, cl. }
        destruct Hc as [c Hc]. congruence.
Qed.

Lemma gather_samples (w : Registries) (ps : list string) (l : Lists) :
  gather w registry batch (mkLists [] [] []) ps = Ok l ->
  Forall2 (fun p id => exists pkg cl,
             package_at w registry p = Some pkg /\ cell_line pkg = Some cl /\
             id = sample_id cl p) ps (samples l).
Proof.
  revert l. induction ps as [|p rest IH]; intros l.
  - cbn [gather]. intros [= <-]. constructor.
  - cbn [gather]. destruct (contribution w registry batch p) as [c|e] eqn:E;
      [|discriminate].
    rewrite gather_from.
    destruct (gather w registry batch _ rest) as [l'|e] eqn:G; [|discriminate].
    intros [= <-].
    apply contribution_ok in E as (pkg & cl & Hp & Hcl & ->).
    cbn. constructor; [now exists pkg, cl | now apply IH].
Qed.

Lemma gather_paired (w : Registries) (ps : list string)
    (recs : list (string * string * string)) :
  Forall2 (paired_record w registry batch) ps recs ->
  gather w registry batch (mkLists [] [] []) ps =
  Ok (mkLists (map (fun r => fst (fst r)) recs)
        (map (fun r => snd (fst r)) recs) (map snd recs)).
Proof.
  induction 1 as [|p rec ps recs (pkg & cl & f1 & f2 & Hp & Hcl & H1 & H2 & ->) _ IH].
  - reflexivity.
  - cbn [gather].
    assert (E : contribution w registry batch p =
                Ok (mkLists [sample_id cl p] [location registry batch p f1]
                      [location registry batch p f2])).
    { apply contribution_ok. exists pkg, cl. now rewrite H1, H2. }
    rewrite E, gather_from, IH. reflexivity.
Qed.

Lemma contribution_view (w1 w2 : Registries) (p : string) :
  option_map view (package_at w1 registry p) =
  option_map view (package_at w2 registry p) ->
  contribution w1 registry batch p = contribution w2 registry batch p.
Proof.
  unfold contribution, forward_reads, reverse_reads, reads, view.
  destruct (package_at w1 registry p) as [pkg1|],
           (package_at w2 registry p) as [pkg2|]; cbn [option_map];
    try discriminate; [|reflexivity].
  intros [= -> ->]. reflexivity.
Qed.

Lemma gather_view (w1 w2 : Registries) (ps : list string) (st : Lists) :
  (forall p, In p ps ->
     option_map view (package_at w1 registry p) =
     option_map view (package_at w2 registry p)) ->
  gather w1 registry batch st ps = gather w2 registry batch st ps.
Proof.
  revert st. induction ps as [|p rest IH]; intros st H; [reflexivity|].
  cbn [gather]. rewrite (contribution_view w1 w2 p) by (apply H; now left).
  destruct (contribution w2 registry batch p); [|reflexivity].
  apply IH. intros q Hq. apply H. now right.
Qed.

End Loop.

(** ** Cell 5: the frame *)

Lemma create_sample_sheet_equal (s fq1 fq2 : list string) :
  length fq1 = length s -> length fq2 = length s ->
  create_sample_sheet (mkLists s fq1 fq2) =
  Ok (mkDataFrame (length s)
        [("sample", s); ("fastq_1", fq1); ("fastq_2", fq2);
         ("strandedness", repeat "auto" (length s))]).
Proof.
  intros H1 H2. unfold create_sample_sheet, DataFrame_of_dict.
  cbn [samples fastq1 fastq2 forallb snd].
  rewrite H1, H2, Nat.eqb_refl. reflexivity.
Qed.

Lemma create_sample_sheet_unequal (s fq1 fq2 : list string) :
  length fq1 <> length s \/ length fq2 <> length s ->
  create_sample_sheet (mkLists s fq1 fq2) = Raise ValueError.
Proof.
  intros H. unfold create_sample_sheet, DataFrame_of_dict.
  cbn [samples fastq1 fastq2 forallb snd].
  destruct (Nat.eqb_spec (length fq1) (length s)) as [E1|N1];
    [|reflexivity].
  destruct (Nat.eqb_spec (length fq2) (length s)) as [E2|N2];
    [|reflexivity].
  tauto.
Qed.

Lemma create_sample_sheet_ok (l : Lists) (df : DataFrame) :
  create_sample_sheet l = Ok df ->
  length (fastq1 l) = length (samples l) /\
  length (fastq2 l) = length (samples l) /\
  df = mkDataFrame (length (samples l))
         [("sample", samples l); ("fastq_1", fastq1 l); ("fastq_2", fastq2 l);
          ("strandedness", repeat "auto" (length (samples l)))].
Proof.
  destruct l as [s fq1 fq2]. cbn [samples fastq1 fastq2]. intros H.
  destruct (Nat.eq_dec (length fq1) (length s)) as [E1|N1].
  - destruct (Nat.eq_dec (length fq2) (length s)) as [E2|N2].
    + rewrite create_sample_sheet_equal in H by assumption.
      injection H as <-. auto.
    + rewrite create_sample_sheet_unequal in H by auto. discriminate.
  - rewrite create_sample_sheet_unequal in H by auto. discriminate.
Qed.

Lemma build_sample_sheet_gather (registry batch : string)
    (packages : list string) (w : Registries) :
  build_sample_sheet registry batch packages w =
  (match gather w registry batch (mkLists [] [] []) (matching batch packages) with
   | Ok l => create_sample_sheet l
   | Raise e => Raise e
   end, w).
Proof.
  unfold build_sample_sheet, collect, bind. rewrite for_packages_gather.
  now destruct (gather w registry batch _ _).
Qed.

(** ** Stripping at the notebook's own batch *)

Lemma prefix_append (a s : string) : String.prefix a (a +:+ s) = true.
Proof.
  induction a as [|c a IH]; [now destruct s|].
  cbn [append String.prefix]. now destruct (ascii_dec c c).
Qed.

Lemma str_in_prefix (a s : string) : str_in a (a +:+ s) = true.
Proof.
  destruct (a +:+ s) eqn:E; cbn [str_in]; rewrite <- E, prefix_append;
    reflexivity.
Qed.

Lemma replace_scan_skip (old new a s : string) :
  replace_scan old new (String.length a) (a +:+ s) = replace_scan old new 0 s.
Proof. induction a as [|c a IH]; [reflexivity | exact IH]. Qed.

Lemma replace_scan_absent (old new s : string) :
  str_in old s = false -> replace_scan old new 0 s = s.
Proof.
  induction s as [|c s IH]; [reflexivity|].
  cbn [str_in replace_scan]. intros H. apply orb_false_iff in H as [-> H].
  now rewrite IH.
Qed.

Lemma str_replace_prefix (c : ascii) (old s : string) :
  str_in (String c old) s = false ->
  str_replace (String c old +:+ s) (String c old) "" = s.
Proof.
  intros H. unfold str_replace.
  change (String c old +:+ s) with (String c (old +:+ s)).
  cbn [replace_scan].
  change (String c (old +:+ s)) with (String c old +:+ s).
  rewrite prefix_append.
  replace (String.length (String c old) - 1) with (String.length old)
    by (cbn [String.length]; lia).
  rewrite replace_scan_skip. now apply replace_scan_absent.
Qed.

(** With the batch of the notebook, an identifier made of the batch name,
    an underscore and a suffix is stripped to the suffix, and the location
    of a member file is the address of the package followed by the file. *)
Lemma stripped_at_notebook_batch (s : string) :
  str_in "ccle/20190225_PRJNA523380_" s = false ->
  stripped ("ccle/20190225_PRJNA523380_" +:+ s) = s.
Proof. apply str_replace_prefix. Qed.

Lemma location_at_notebook_batch (registry s file : string) :
  str_in "ccle/20190225_PRJNA523380_" s = false ->
  location registry "ccle/20190225_PRJNA523380"
    ("ccle/20190225_PRJNA523380_" +:+ s) file =
  registry +:+ "/" +:+ ("ccle/20190225_PRJNA523380_" +:+ s) +:+ "/" +:+ file.
Proof.
  intros H. unfold location. rewrite stripped_at_notebook_batch by assumption.
  rewrite !append_assoc. reflexivity.
Qed.

(** ** The sample sheet of a listing *)

Lemma build_paired (registry batch : string) (packages : list string)
    (w : Registries) (recs : list (string * string * string)) :
  Forall2 (paired_record w registry batch) (matching batch packages) recs ->
  fst (build_sample_sheet registry batch packages w) = Ok (sheet_of recs).
Proof.
  intros H. rewrite build_sample_sheet_gather. cbn [fst].
  rewrite (gather_paired _ _ _ _ _ H).
  rewrite create_sample_sheet_equal by now rewrite !length_map.
  unfold sheet_of. now rewrite length_map.
Qed.

Lemma build_ok_samples (registry batch : string) (packages : list string)
    (w : Registries) (df : DataFrame) :
  fst (build_sample_sheet registry batch packages w) = Ok df ->
  exists ids,
    column df "sample" = Some ids /\ nrows df = length ids /\
    Forall2 (fun p id => exists pkg cl,
               package_at w registry p = Some pkg /\ cell_line pkg = Some cl /\
               id = sample_id cl p) (matching batch packages) ids.
Proof.
  rewrite build_sample_sheet_gather. cbn [fst].
  destruct (gather w registry batch _ _) as [l|e] eqn:G; [|discriminate].
  intros H. apply create_sample_sheet_ok in H as (_ & _ & ->).
  exists (samples l). repeat split.
  now apply (gather_samples registry batch).
Qed.

Lemma Forall2_nth_error {A B} (R : A -> B -> Prop) (l : list A) (l' : list B)
    (i : nat) (x : A) :
  Forall2 R l l' -> nth_error l i = Some x ->
  exists y, nth_error l' i = Some y /\ R x y.
Proof.
  intros H. revert i. induction H as [|a b l l' Hab _ IH]; intros [|i] Hi;
    try discriminate.
  - injection Hi as ->. now exists b.
  - now apply IH.
Qed.

Lemma Forall2_and_left {A B} (P : A -> Prop) (R : A -> B -> Prop)
    (l : list A) (l' : list B) :
  (forall x, In x l -> P x) -> Forall2 R l l' ->
  Forall2 (fun x y => P x /\ R x y) l l'.
Proof.
  intros HP H. induction H as [|a b l l' Hab _ IH]; constructor.
  - split; [apply HP; now left | exact Hab].
  - apply IH. intros x Hx. apply HP. now right.
Qed.

Lemma total_reads_app (suffix : string) (w : Registries) (registry : string)
    (ps qs : list string) :
  total_reads suffix w registry (ps ++ qs) =
  total_reads suffix w registry ps + total_reads suffix w registry qs.
Proof. unfold total_reads. now rewrite map_app, list_sum_app. Qed.

Lemma total_reads_paired (w : Registries) (registry batch : string)
    (ps : list string) :
  Forall (fun q => exists rec, paired_record w registry batch q rec) ps ->
  total_reads "_1.fastq.gz" w registry ps = length ps /\
  total_reads "_2.fastq.gz" w registry ps = length ps.
Proof.
  unfold total_reads.
  induction 1 as [|q ps (rec & pkg & cl & f1 & f2 & Hp & _ & H1 & H2 & _) _ [IH1 IH2]];
    [easy|].
  cbn [map length]. unfold read_count at 1 3. rewrite Hp.
  unfold forward_reads in H1. unfold reverse_reads in H2. rewrite H1, H2.
  unfold list_sum in *. cbn [fold_right length]. lia.
Qed.

Lemma paired_readable (w : Registries) (registry batch q : string) :
  (exists rec, paired_record w registry batch q rec) -> readable w registry q.
Proof. intros (rec & pkg & cl & f1 & f2 & Hp & Hcl & _). now exists pkg, cl. Qed.

(** X9: with the batch of the notebook the row of a package follows the
    formula of the spec: the sample is the CellLine value, two underscores and the
    suffix of the identifier, and each location is the registry, a slash,
    the identifier, a slash and the file. *)
Lemma notebook_batch_row (registry s cl f1 f2 : string) (pkg : Package)
    (w : Registries) :
  let p := "ccle/20190225_PRJNA523380_" +:+ s in
  str_in "ccle/20190225_PRJNA523380_" s = false ->
  package_at w registry p = Some pkg -> cell_line pkg = Some cl ->
  forward_reads pkg = [f1] -> reverse_reads pkg = [f2] ->
  fst (build_sample_sheet registry "ccle/20190225_PRJNA523380" [p] w) =
  Ok (sheet_of
        [(cl +:+ "__" +:+ s,
          registry +:+ "/" +:+ p +:+ "/" +:+ f1,
          registry +:+ "/" +:+ p +:+ "/" +:+ f2)]).
Proof.
  intros p Hs Hp Hcl H1 H2. apply build_paired.
  assert (Hm : matching "ccle/20190225_PRJNA523380" [p] = [p]).
  { unfold matching. cbn [List.filter].
    change p with ("ccle/20190225_PRJNA523380" +:+ ("_" +:+ s)).
    now rewrite str_in_prefix. }
  rewrite Hm. repeat constructor. exists pkg, cl, f1, f2.
  repeat split; try assumption. unfold sample_id, p.
  rewrite !location_at_notebook_batch, stripped_at_notebook_batch by assumption.
  now rewrite (append_assoc cl).
Qed.

(** On a platform whose line terminator is a line feed, a carriage return
    alone does not make the writer quote a field; with a terminator that
    holds it, the field is quoted. *)
Lemma carriage_return_quoting :
  write_field (linesep Posix) (String CR "") = String CR "" /\
  write_field (linesep Windows) (String CR "") = quoted (String CR "").
Proof. split; reflexivity. Qed.

(** With [index=True] the file would start with the column of row labels. *)
Lemma to_csv_with_index :
  to_csv (sheet_of [("a", "b", "c")]) true (linesep Posix) =
  (",sample,fastq_1,fastq_2,strandedness" +:+ linesep Posix) +:+
  ("0,a,b,c,auto" +:+ linesep Posix).
Proof. vm_compute. reflexivity. Qed.

(** ** The claims *)

(** C1 (the code departs from it): at the fixture of the spec (registry
    [s3://bkt], batch [proj/b1], identifier [proj/b1_s1], CellLine [HELA],
    member files [s1_1.fastq.gz] and [s1_2.fastq.gz]) the loop removes the
    fixed text [ccle/20190225_PRJNA523380_] from the identifier, not the
    batch name, so nothing is stripped: the sample is [HELA__proj/b1_s1] and
    the locations repeat the batch name, where the claim has [HELA__s1] and
    [s3://bkt/proj/b1_s1/...]. *)
Theorem spec_fixture_row :
  stripped "proj/b1_s1" = "proj/b1_s1" /\
  fst (build_sample_sheet "s3://bkt" "proj/b1" ["proj/b1_s1"]
         Fixtures.spec_fixture) =
  Ok (sheet_of
        [("HELA__proj/b1_s1",
          "s3://bkt/proj/b1_proj/b1_s1/s1_1.fastq.gz",
          "s3://bkt/proj/b1_proj/b1_s1/s1_2.fastq.gz")]).
Proof. split; vm_compute; reflexivity. Qed.

(** C2: identifiers without the batch string leave no row.  The sample sheet
    of a listing is that of its matching identifiers alone; when it is
    built, it has one row per matching identifier, in listing order, each
    named after its identifier; and a listing of three identifiers of which
    two match, each with one forward and one reverse read, gives exactly
    the two rows of the formula, in listing order. *)
Theorem rows_follow_matching_identifiers (registry batch : string)
    (packages : list string) (w : Registries) :
  build_sample_sheet registry batch packages w =
  build_sample_sheet registry batch (matching batch packages) w /\
  (forall df,
     fst (build_sample_sheet registry batch packages w) = Ok df ->
     nrows df = length (matching batch packages) /\
     exists ids,
       column df "sample" = Some ids /\
       Forall2 (fun p id => str_in batch p = true /\ exists pkg cl,
                  package_at w registry p = Some pkg /\
                  cell_line pkg = Some cl /\ id = sample_id cl p)
         (matching batch packages) ids) /\
  (forall a b c x y rx ry,
     packages = [a; b; c] -> matching batch packages = [x; y] ->
     paired_record w registry batch x rx ->
     paired_record w registry batch y ry ->
     fst (build_sample_sheet registry batch packages w) = Ok (sheet_of [rx; ry])
     /\ rows (sheet_of [rx; ry]) =
        [[fst (fst rx); snd (fst rx); snd rx; "auto"];
         [fst (fst ry); snd (fst ry); snd ry; "auto"]]).
Proof.
  split; [|split].
  - rewrite !build_sample_sheet_gather. now rewrite matching_idempotent.
  - intros df H. apply build_ok_samples in H as (ids & Hc & Hn & HF).
    split.
    + rewrite Hn. symmetry. eapply Forall2_length. exact HF.
    + exists ids. split; [exact Hc|].
      apply Forall2_and_left; [|exact HF].
      intros p Hp. now apply matching_in in Hp.
  - intros a b c x y rx ry _ Hm Hx Hy. split.
    + apply build_paired. rewrite Hm. now repeat constructor.
    + now rewrite rows_sheet_of.
Qed.

Lemma rows_follow_matching_identifiers_witness :
  fst (build_sample_sheet Fixtures.bucket Fixtures.batch0
         [Fixtures.s1; Fixtures.other_batch; Fixtures.s2] Fixtures.demo) =
  Ok (sheet_of
        [("HELA__s1",
          "s3://quilt-example-bucket/ccle/20190225_PRJNA523380_s1/s1_1.fastq.gz",
          "s3://quilt-example-bucket/ccle/20190225_PRJNA523380_s1/s1_2.fastq.gz");
         ("K562__s2",
          "s3://quilt-example-bucket/ccle/20190225_PRJNA523380_s2/s2_1.fastq.gz",
          "s3://quilt-example-bucket/ccle/20190225_PRJNA523380_s2/s2_2.fastq.gz")]).
Proof.
  refine (proj1 (proj2 (proj2 (rows_follow_matching_identifiers
            Fixtures.bucket Fixtures.batch0
            [Fixtures.s1; Fixtures.other_batch; Fixtures.s2] Fixtures.demo))
          Fixtures.s1 Fixtures.other_batch Fixtures.s2 Fixtures.s1 Fixtures.s2
          _ _ eq_refl _ _ _)).
  - vm_compute. reflexivity.
  - exists (Fixtures.raw_package "HELA" ["s1_1.fastq.gz"; "s1_2.fastq.gz"]),
      "HELA", "s1_1.fastq.gz", "s1_2.fastq.gz".
    repeat split; vm_compute; reflexivity.
  - exists (Fixtures.raw_package "K562" ["s2_1.fastq.gz"; "s2_2.fastq.gz"]),
      "K562", "s2_1.fastq.gz", "s2_2.fastq.gz".
    repeat split; vm_compute; reflexivity.
Defined.

(** C3 (as the code has it): a matching package with no forward read, or
    with no reverse read, next to matching packages that each have one of
    both, makes the construction of the frame raise [ValueError]: no sample
    sheet is built, and so no row with an empty or missing location. *)
Theorem missing_read_raises (registry batch : string) (packages : list string)
    (w : Registries) (before after : list string) (p : string)
    (pkg : Package) (cl : string) :
  matching batch packages = before ++ p :: after ->
  Forall (fun q => exists rec, paired_record w registry batch q rec)
    (before ++ after) ->
  package_at w registry p = Some pkg -> cell_line pkg = Some cl ->
  forward_reads pkg = [] \/ reverse_reads pkg = [] ->
  fst (build_sample_sheet registry batch packages w) = Raise ValueError.
Proof.
  intros Hm Hothers Hp Hcl Hnone.
  rewrite build_sample_sheet_gather. cbn [fst].
  apply Forall_app in Hothers as [Hb Ha].
  assert (Hr : Forall (readable w registry) (matching batch packages)).
  { rewrite Hm. apply Forall_app. split.
    - eapply List.Forall_impl; [|exact Hb]. intros q. apply paired_readable.
    - constructor; [now exists pkg, cl|].
      eapply List.Forall_impl; [|exact Ha]. intros q. apply paired_readable. }
  apply (gather_readable registry batch w _ (mkLists [] [] [])) in Hr as [l Hl].
  rewrite Hl. destruct (gather_lengths _ _ _ _ _ _ Hl) as (Hs & H1 & H2).
  cbn [samples fastq1 fastq2 length] in Hs, H1, H2.
  rewrite Hm in Hs, H1, H2.
  change (p :: after) with ([p] ++ after) in H1, H2.
  rewrite !total_reads_app in H1, H2. rewrite length_app in Hs.
  destruct (total_reads_paired _ _ _ _ Hb) as [Hb1 Hb2].
  destruct (total_reads_paired _ _ _ _ Ha) as [Ha1 Ha2].
  rewrite Hb1, Ha1 in H1. rewrite Hb2, Ha2 in H2.
  unfold total_reads, read_count, list_sum in H1, H2.
  cbn [map fold_right] in H1, H2.
  rewrite Hp in H1, H2. cbn [length] in Hs.
  destruct l as [s fq1 fq2]. cbn [samples fastq1 fastq2] in *.
  apply create_sample_sheet_unequal.
  unfold forward_reads, reverse_reads in Hnone.
  destruct Hnone as [E|E]; rewrite E in *; cbn [length] in *; [left|right]; lia.
Qed.

Lemma missing_read_raises_witness :
  fst (build_sample_sheet Fixtures.bucket Fixtures.batch0
         [Fixtures.s1; Fixtures.no_reads; Fixtures.s2] Fixtures.demo) =
  Raise ValueError.
Proof.
  apply (missing_read_raises Fixtures.bucket Fixtures.batch0 _ Fixtures.demo
           [Fixtures.s1] [Fixtures.s2] Fixtures.no_reads
           (Fixtures.raw_package "A549" ["README.md"]) "A549").
  - vm_compute. reflexivity.
  - repeat constructor.
    + eexists.
      exists (Fixtures.raw_package "HELA" ["s1_1.fastq.gz"; "s1_2.fastq.gz"]),
        "HELA", "s1_1.fastq.gz", "s1_2.fastq.gz".
      repeat split; vm_compute; reflexivity.
    + eexists.
      exists (Fixtures.raw_package "K562" ["s2_1.fastq.gz"; "s2_2.fastq.gz"]),
        "K562", "s2_1.fastq.gz", "s2_2.fastq.gz".
      repeat split; vm_compute; reflexivity.
  - vm_compute. reflexivity.
  - vm_compute. reflexivity.
  - left. vm_compute. reflexivity.
Defined.

(** C3, as stated, fails: the one matching package of this listing has no
    member file that passes either read test, and the construction raises
    instead of giving a row with an empty location. *)
Lemma no_reads_no_row :
  matching Fixtures.batch0 [Fixtures.no_reads] = [Fixtures.no_reads] /\
  (exists pkg,
     package_at Fixtures.demo Fixtures.bucket Fixtures.no_reads = Some pkg /\
     forward_reads pkg = [] /\ reverse_reads pkg = []) /\
  fst (build_sample_sheet Fixtures.bucket Fixtures.batch0 [Fixtures.no_reads]
         Fixtures.demo) = Raise ValueError /\
  ~ (exists df,
       fst (build_sample_sheet Fixtures.bucket Fixtures.batch0
              [Fixtures.no_reads] Fixtures.demo) = Ok df).
Proof.
  assert (E : fst (build_sample_sheet Fixtures.bucket Fixtures.batch0
                     [Fixtures.no_reads] Fixtures.demo) = Raise ValueError)
    by (vm_compute; reflexivity).
  split; [vm_compute; reflexivity|]. split; [|split].
  - exists (Fixtures.raw_package "A549" ["README.md"]).
    repeat split; vm_compute; reflexivity.
  - exact E.
  - intros [df H]. rewrite E in H. discriminate.
Qed.

(** C4: equal sample names are all kept.  A sample sheet that is built has
    one row per matching identifier, and two matching identifiers with the
    same CellLine value and the same stripped identifier both have their
    row, under the one name. *)
Theorem equal_sample_names_persist (registry batch : string)
    (packages : list string) (w : Registries) (df : DataFrame) :
  fst (build_sample_sheet registry batch packages w) = Ok df ->
  exists ids,
    column df "sample" = Some ids /\
    nrows df = length (matching batch packages) /\
    length ids = length (matching batch packages) /\
    forall i j p q pkgp pkgq cl,
      i <> j ->
      nth_error (matching batch packages) i = Some p ->
      nth_error (matching batch packages) j = Some q ->
      package_at w registry p = Some pkgp ->
      package_at w registry q = Some pkgq ->
      cell_line pkgp = Some cl -> cell_line pkgq = Some cl ->
      stripped p = stripped q ->
      nth_error ids i = Some (sample_id cl p) /\
      nth_error ids j = Some (sample_id cl p).
Proof.
  intros H. apply build_ok_samples in H as (ids & Hc & Hn & HF).
  assert (Hlen : length ids = length (matching batch packages))
    by (symmetry; eapply Forall2_length; exact HF).
  exists ids. split; [exact Hc|]. split; [congruence|]. split; [exact Hlen|].
  intros i j p q pkgp pkgq cl _ Hi Hj Hpp Hpq Hclp Hclq Hst.
  destruct (Forall2_nth_error _ _ _ _ _ HF Hi)
    as (idp & Hidp & pkg1 & cl1 & Hp1 & Hcl1 & ->).
  destruct (Forall2_nth_error _ _ _ _ _ HF Hj)
    as (idq & Hidq & pkg2 & cl2 & Hp2 & Hcl2 & ->).
  assert (cl1 = cl) as -> by congruence.
  assert (cl2 = cl) as -> by congruence.
  split; [exact Hidp|]. rewrite Hidq. unfold sample_id. now rewrite Hst.
Qed.

Lemma equal_sample_names_persist_witness :
  exists ids,
    column
      (sheet_of
         [("HELA__s1",
           "s3://quilt-example-bucket/ccle/20190225_PRJNA523380_s1/s1_1.fastq.gz",
           "s3://quilt-example-bucket/ccle/20190225_PRJNA523380_s1/s1_2.fastq.gz");
          ("HELA__s1",
           "s3://quilt-example-bucket/ccle/20190225_PRJNA523380_s1/t_1.fastq.gz",
           "s3://quilt-example-bucket/ccle/20190225_PRJNA523380_s1/t_2.fastq.gz")])
      "sample" = Some ids /\
    nth_error ids 0 = Some "HELA__s1" /\ nth_error ids 1 = Some "HELA__s1".
Proof.
  destruct (equal_sample_names_persist Fixtures.bucket Fixtures.batch0
              [Fixtures.s1; Fixtures.s1_again] Fixtures.demo _
              ltac:(vm_compute; reflexivity))
    as (ids & Hc & _ & _ & H).
  exists ids. split; [exact Hc|].
  apply (H 0 1 Fixtures.s1 Fixtures.s1_again
           (Fixtures.raw_package "HELA" ["s1_1.fastq.gz"; "s1_2.fastq.gz"])
           (Fixtures.raw_package "HELA" ["t_1.fastq.gz"; "t_2.fastq.gz"])
           "HELA"); try (vm_compute; reflexivity).
  discriminate.
Defined.

Lemma create_sample_sheet_sheet_of (l : Lists) (df : DataFrame) :
  create_sample_sheet l = Ok df ->
  exists recs,
    df = sheet_of recs /\
    map (fun r => fst (fst r)) recs = samples l /\
    map (fun r => snd (fst r)) recs = fastq1 l /\
    map snd recs = fastq2 l.
Proof.
  intros H. apply create_sample_sheet_ok in H as (H1 & H2 & ->).
  exists (combine (combine (samples l) (fastq1 l)) (fastq2 l)).
  split; [now apply sheet_of_combine|].
  pose proof (sheet_of_combine _ _ _ H1 H2) as E. unfold sheet_of in E.
  injection E as _ Es E1 E2 _. auto.
Qed.





(** C7: the loop only reads the registries.  After cell 4, and after cells
    4 and 5, the registries are what they were before, whatever the listing
    and whether or not an exception is raised; so are they after every
    single pass of the loop. *)
Theorem build_leaves_registries_unchanged (registry batch : string)
    (packages : list string) (w : Registries) :
  snd (collect registry batch packages w) = w /\
  snd (build_sample_sheet registry batch packages w) = w /\
  (forall st p, snd (package_step registry batch st p w) = w).
Proof.
  split; [|split].
  - unfold collect. now rewrite for_packages_gather.
  - now rewrite build_sample_sheet_gather.
  - intros st p. now rewrite package_step_contribution.
Qed.

(** The upload of cell 7, by contrast, writes: the pushed package is in the
    registry afterwards. *)
Lemma upload_writes_registry (batch : string) :
  let w : Registries := {[ "s3://quilt-example-bucket" := ∅ ]} in
  package_at w "s3://quilt-example-bucket"
    "ccle/20190225_PRJNA523380_nfcore_rnaseq" = None /\
  exists pkg,
    package_at (snd (upload_sample_sheet batch w)) "s3://quilt-example-bucket"
      "ccle/20190225_PRJNA523380_nfcore_rnaseq" = Some pkg /\
    keys pkg = [sheet_name batch].
Proof.
  cbn zeta. split; [reflexivity|].
  exists (set (mkPackage ∅ []) (sheet_name batch)
            ((outpath +:+ "/") +:+ sheet_name batch)).
  split; reflexivity.
Qed.

(** C8: the two read tests are independent.  A member file whose name
    passes both is appended to both lists by the body of the inner loop,
    and both lists of the processed package hold its location. *)
Theorem read_tests_independent (registry batch p file : string)
    (fq1 fq2 : list string) :
  str_in "_1.fastq.gz" file = true -> str_in "_2.fastq.gz" file = true ->
  file_step registry batch p (fq1, fq2) file =
  (fq1 ++ [location registry batch p file],
   fq2 ++ [location registry batch p file]) /\
  (forall st w pkg cl,
     str_in batch p = true -> package_at w registry p = Some pkg ->
     cell_line pkg = Some cl -> In file (keys pkg) ->
     exists l,
       fst (package_step registry batch st p w) = Ok l /\
       In (location registry batch p file) (fastq1 l) /\
       In (location registry batch p file) (fastq2 l)) /\
  (forall st w pkg cl,
     str_in batch p = true -> package_at w registry p = Some pkg ->
     cell_line pkg = Some cl -> keys pkg = [file] ->
     fst (package_step registry batch st p w) =
     Ok (mkLists (samples st ++ [sample_id cl p])
           (fastq1 st ++ [location registry batch p file])
           (fastq2 st ++ [location registry batch p file]))).
Proof.
  intros H1 H2. split; [|split].
  - unfold file_step. cbn [fst snd]. now rewrite H1, H2.
  - intros st w pkg cl Hb Hp Hcl Hin.
    rewrite package_step_contribution, Hb. cbn [fst].
    assert (E : contribution w registry batch p =
                Ok (mkLists [sample_id cl p]
                      (map (location registry batch p) (forward_reads pkg))
                      (map (location registry batch p) (reverse_reads pkg))))
      by (apply contribution_ok; now exists pkg, cl).
    rewrite E. eexists. split; [reflexivity|].
    unfold append_lists. cbn [fastq1 fastq2].
    split; apply in_or_app; right; apply in_map;
      unfold forward_reads, reverse_reads, reads; apply filter_In; auto.
  - intros st w pkg cl Hb Hp Hcl Hk.
    rewrite package_step_contribution, Hb. cbn [fst].
    assert (E : contribution w registry batch p =
                Ok (mkLists [sample_id cl p]
                      [location registry batch p file]
                      [location registry batch p file])).
    { apply contribution_ok. exists pkg, cl. repeat split; try assumption.
      unfold forward_reads, reverse_reads, reads. rewrite Hk.
      cbn [List.filter]. now rewrite H1, H2. }
    now rewrite E.
Qed.

Lemma read_tests_independent_witness :
  file_step Fixtures.bucket Fixtures.batch0 Fixtures.both_tests ([], [])
    "x_1.fastq.gz_2.fastq.gz" =
  ([] ++ [location Fixtures.bucket Fixtures.batch0 Fixtures.both_tests
            "x_1.fastq.gz_2.fastq.gz"],
   [] ++ [location Fixtures.bucket Fixtures.batch0 Fixtures.both_tests
            "x_1.fastq.gz_2.fastq.gz"]).
Proof.
  apply (read_tests_independent Fixtures.bucket Fixtures.batch0
           Fixtures.both_tests "x_1.fastq.gz_2.fastq.gz" [] []);
    vm_compute; reflexivity.
Defined.

(** C9 (as the code has it): after the loop there are as many sample names
    as matching identifiers, and as many forward (reverse) locations as
    member files that pass the forward (reverse) test over all matching
    packages together.  When one of these two totals differs from the
    number of sample names, the construction of the frame raises
    [ValueError] and no sample sheet is built; when both agree with it, a
    sample sheet is built. *)
Theorem unequal_lengths_raise (registry batch : string)
    (packages : list string) (w : Registries) (l : Lists) :
  fst (collect registry batch packages w) = Ok l ->
  (length (samples l) = length (matching batch packages) /\
   length (fastq1 l) =
     total_reads "_1.fastq.gz" w registry (matching batch packages) /\
   length (fastq2 l) =
     total_reads "_2.fastq.gz" w registry (matching batch packages)) /\
  (length (fastq1 l) <> length (samples l) \/
   length (fastq2 l) <> length (samples l) ->
   create_sample_sheet l = Raise ValueError /\
   fst (build_sample_sheet registry batch packages w) = Raise ValueError) /\
  (length (fastq1 l) = length (samples l) ->
   length (fastq2 l) = length (samples l) ->
   exists df, fst (build_sample_sheet registry batch packages w) = Ok df).
Proof.
  unfold collect. rewrite for_packages_gather. cbn [fst]. intros Hl.
  rewrite build_sample_sheet_gather, Hl. cbn [fst].
  split; [|split].
  - apply gather_lengths in Hl. exact Hl.
  - intros H. destruct l as [s fq1 fq2]. cbn [samples fastq1 fastq2] in H.
    now rewrite create_sample_sheet_unequal.
  - intros H1 H2. destruct l as [s fq1 fq2]. cbn [samples fastq1 fastq2] in *.
    eexists. now apply create_sample_sheet_equal.
Qed.

Lemma unequal_lengths_raise_witness :
  create_sample_sheet
    (mkLists ["A549__z"]
       []
       ["s3://quilt-example-bucket/ccle/20190225_PRJNA523380_z/z_2.fastq.gz"]) =
  Raise ValueError /\
  fst (build_sample_sheet Fixtures.bucket Fixtures.batch0 [Fixtures.no_forward]
         Fixtures.demo) = Raise ValueError.
Proof.
  apply (unequal_lengths_raise Fixtures.bucket Fixtures.batch0
           [Fixtures.no_forward] Fixtures.demo).
  - vm_compute. reflexivity.
  - left. cbn [fastq1 samples length]. lia.
Defined.

(** C9, as stated, fails: here one matching package has no forward read and
    the other has two, so a package does contribute zero and another more
    than one; the three lists still have two entries each, nothing is
    raised, and the first sample gets a forward read of the second. *)
Lemma offsetting_counts_build :
  matching Fixtures.batch0 [Fixtures.no_forward; Fixtures.two_forward] =
    [Fixtures.no_forward; Fixtures.two_forward] /\
  read_count "_1.fastq.gz" Fixtures.demo Fixtures.bucket Fixtures.no_forward = 0 /\
  read_count "_1.fastq.gz" Fixtures.demo Fixtures.bucket Fixtures.two_forward = 2 /\
  fst (build_sample_sheet Fixtures.bucket Fixtures.batch0
         [Fixtures.no_forward; Fixtures.two_forward] Fixtures.demo) =
  Ok (sheet_of
        [("A549__z",
          "s3://quilt-example-bucket/ccle/20190225_PRJNA523380_d/d_1.fastq.gz",
          "s3://quilt-example-bucket/ccle/20190225_PRJNA523380_z/z_2.fastq.gz");
         ("MCF7__d",
          "s3://quilt-example-bucket/ccle/20190225_PRJNA523380_d/dd_1.fastq.gz",
          "s3://quilt-example-bucket/ccle/20190225_PRJNA523380_d/d_2.fastq.gz")]).
Proof. repeat split; vm_compute; reflexivity. Qed.

(** C10: the sample sheet depends only on what the loop reads.  Two states
    of the registries that give, for every matching identifier of the
    listing, the same CellLine value and the same member files, give the
    same result for the same listing, registry and batch: the same sample
    sheet, or the same exception. *)
Theorem build_is_deterministic (registry batch : string)
    (packages : list string) (w1 w2 : Registries) :
  (forall p, In p packages -> str_in batch p = true ->
     option_map view (package_at w1 registry p) =
     option_map view (package_at w2 registry p)) ->
  fst (build_sample_sheet registry batch packages w1) =
  fst (build_sample_sheet registry batch packages w2).
Proof.
  intros H. rewrite !build_sample_sheet_gather. cbn [fst].
  rewrite (gather_view registry batch w1 w2); [reflexivity|].
  intros p Hp. apply matching_in in Hp as [Hin Hb]. now apply H.
Qed.

Lemma build_is_deterministic_witness :
  Fixtures.demo <> Fixtures.demo_elsewhere /\
  fst (build_sample_sheet Fixtures.bucket Fixtures.batch0
         [Fixtures.s1; Fixtures.other_batch; Fixtures.s2] Fixtures.demo) =
  fst (build_sample_sheet Fixtures.bucket Fixtures.batch0
         [Fixtures.s1; Fixtures.other_batch; Fixtures.s2]
         Fixtures.demo_elsewhere).
Proof.
  split.
  - intros E.
    assert (H : package_at Fixtures.demo Fixtures.bucket Fixtures.other_batch =
                package_at Fixtures.demo_elsewhere Fixtures.bucket
                  Fixtures.other_batch) by now rewrite E.
    vm_compute in H. discriminate H.
  - apply (build_is_deterministic Fixtures.bucket Fixtures.batch0
             [Fixtures.s1; Fixtures.other_batch; Fixtures.s2]
             Fixtures.demo Fixtures.demo_elsewhere).
    intros p [<- | [<- | [<- | []]]] Hb;
      solve [vm_compute; reflexivity | vm_compute in Hb; discriminate Hb].
Defined.

(** * Further properties of the notebook *)

(** ** More on the loop *)

Lemma matching_app (batch : string) (l1 l2 : list string) :
  matching batch (l1 ++ l2) = matching batch l1 ++ matching batch l2.
Proof. unfold matching. apply List.filter_app. Qed.

Lemma gather_app (w : Registries) (registry batch : string) (st : Lists)
    (l1 l2 : list string) :
  gather w registry batch st (l1 ++ l2) =
  match gather w registry batch st l1 with
  | Ok st' => gather w registry batch st' l2
  | Raise e => Raise e
  end.
Proof.
  revert st. induction l1 as [|p l1 IH]; intros st; [reflexivity|].
  cbn [app gather]. destruct (contribution w registry batch p); [apply IH|].
  reflexivity.
Qed.

Lemma gather_columns (w : Registries) (registry batch : string)
    (ps : list string) (l : Lists) :
  gather w registry batch (mkLists [] [] []) ps = Ok l ->
  fastq1 l = flat_map (locations "_1.fastq.gz" w registry batch) ps /\
  fastq2 l = flat_map (locations "_2.fastq.gz" w registry batch) ps.
Proof.
  revert l. induction ps as [|p rest IH]; intros l.
  - cbn [gather]. intros [= <-]. now split.
  - cbn [gather flat_map].
    destruct (contribution w registry batch p) as [c|e] eqn:E; [|discriminate].
    rewrite gather_from.
    destruct (gather w registry batch _ rest) as [l'|e] eqn:G; [|discriminate].
    intros [= <-]. destruct (IH l' eq_refl) as [H1 H2].
    apply contribution_ok in E as (pkg & cl & Hp & _ & ->).
    unfold locations at 1 3. rewrite Hp. cbn. now rewrite H1, H2.
Qed.

Lemma contribution_error (w : Registries) (registry batch p : string) (e : exn) :
  contribution w registry batch p = Raise e ->
  e = RegistryAccessError \/ e = KeyError "CellLine" \/ e = TypeError.
Proof.
  unfold contribution.
  destruct (package_at w registry p) as [pkg|]; [|intros [= <-]; auto].
  destruct (meta pkg !! "CellLine") as [v|]; [destruct v|];
    intros [= <-]; auto.
Qed.

Lemma gather_error (w : Registries) (registry batch : string) (st : Lists)
    (ps : list string) (e : exn) :
  gather w registry batch st ps = Raise e ->
  e = RegistryAccessError \/ e = KeyError "CellLine" \/ e = TypeError.
Proof.
  revert st. induction ps as [|p rest IH]; intros st; [discriminate|].
  cbn [gather]. destruct (contribution w registry batch p) as [c|e'] eqn:E.
  - apply IH.
  - intros [= <-]. eapply contribution_error. exact E.
Qed.

Lemma create_sample_sheet_error (l : Lists) (e : exn) :
  create_sample_sheet l = Raise e -> e = ValueError.
Proof.
  destruct l as [s fq1 fq2].
  destruct (Nat.eq_dec (length fq1) (length s)) as [E1|N1].
  - destruct (Nat.eq_dec (length fq2) (length s)) as [E2|N2].
    + now rewrite create_sample_sheet_equal.
    + rewrite create_sample_sheet_unequal by auto. now intros [= <-].
  - rewrite create_sample_sheet_unequal by auto. now intros [= <-].
Qed.

Lemma build_first_failure (registry batch : string) (packages : list string)
    (w : Registries) (before after : list string) (p : string) (e : exn) :
  matching batch packages = before ++ p :: after ->
  Forall (readable w registry) before ->
  contribution w registry batch p = Raise e ->
  fst (build_sample_sheet registry batch packages w) = Raise e.
Proof.
  intros Hm Hb He. rewrite build_sample_sheet_gather, Hm, gather_app.
  cbn [fst].
  apply (gather_readable registry batch w _ (mkLists [] [] [])) in Hb
    as [l ->].
  cbn [gather]. now rewrite He.
Qed.

Lemma build_ok_frame (registry batch : string) (packages : list string)
    (w : Registries) (df : DataFrame) :
  fst (build_sample_sheet registry batch packages w) = Ok df ->
  exists ids,
    Forall2 (fun p id => exists pkg cl,
               package_at w registry p = Some pkg /\ cell_line pkg = Some cl /\
               id = sample_id cl p) (matching batch packages) ids /\
    df = mkDataFrame (length (matching batch packages))
           [("sample", ids);
            ("fastq_1",
             flat_map (locations "_1.fastq.gz" w registry batch)
               (matching batch packages));
            ("fastq_2",
             flat_map (locations "_2.fastq.gz" w registry batch)
               (matching batch packages));
            ("strandedness",
             repeat "auto" (length (matching batch packages)))].
Proof.
  rewrite build_sample_sheet_gather. cbn [fst].
  destruct (gather w registry batch _ _) as [l|e] eqn:G; [|discriminate].
  intros H. apply create_sample_sheet_ok in H as (H1 & H2 & ->).
  destruct (gather_columns _ _ _ _ _ G) as [C1 C2].
  destruct (gather_lengths _ _ _ _ _ _ G) as (Ls & _).
  cbn [samples length] in Ls.
  exists (samples l). split; [now apply (gather_samples registry batch)|].
  now rewrite Ls, C1, C2.
Qed.

(** X1: the loop stops at the first matching identifier it cannot process.
    When the matching identifiers before it are all readable, the result is
    [RegistryAccessError] if its package cannot be browsed, [KeyError] on
    [CellLine] if the metadata has no such key, and [TypeError] if the
    value is not a string; the identifiers after it play no part. *)
Theorem first_failure_is_raised (registry batch : string)
    (packages : list string) (w : Registries) (before after : list string)
    (p : string) :
  matching batch packages = before ++ p :: after ->
  Forall (readable w registry) before ->
  (package_at w registry p = None ->
   fst (build_sample_sheet registry batch packages w) =
   Raise RegistryAccessError) /\
  (forall pkg, package_at w registry p = Some pkg ->
     meta pkg !! "CellLine" = None ->
     fst (build_sample_sheet registry batch packages w) =
     Raise (KeyError "CellLine")) /\
  (forall pkg v, package_at w registry p = Some pkg ->
     meta pkg !! "CellLine" = Some v -> (forall s, v <> JStr s) ->
     fst (build_sample_sheet registry batch packages w) = Raise TypeError).
Proof.
  intros Hm Hb.
  assert (H : forall e, contribution w registry batch p = Raise e ->
                fst (build_sample_sheet registry batch packages w) = Raise e)
    by (intros e; now apply (build_first_failure _ _ _ _ before after p)).
  split; [|split].
  - intros Hp. apply H. unfold contribution. now rewrite Hp.
  - intros pkg Hp Hc. apply H. unfold contribution. now rewrite Hp, Hc.
  - intros pkg v Hp Hc Hv. apply H. unfold contribution. rewrite Hp, Hc.
    destruct v; try reflexivity. now contradiction (Hv s).
Qed.

Lemma first_failure_is_raised_witness :
  fst (build_sample_sheet Fixtures.bucket Fixtures.batch0
         [Fixtures.s1; Faulty.no_cell_line; Faulty.absent]
         Faulty.registries) = Raise (KeyError "CellLine") /\
  fst (build_sample_sheet Fixtures.bucket Fixtures.batch0
         [Fixtures.s1; Faulty.numeric_cell_line; Faulty.absent]
         Faulty.registries) = Raise TypeError /\
  fst (build_sample_sheet Fixtures.bucket Fixtures.batch0
         [Fixtures.s1; Faulty.absent; Faulty.no_cell_line]
         Faulty.registries) = Raise RegistryAccessError.
Proof.
  assert (Hs1 : Forall (readable Faulty.registries Fixtures.bucket)
                  [Fixtures.s1]).
  { repeat constructor.
    exists (Fixtures.raw_package "HELA" ["s1_1.fastq.gz"; "s1_2.fastq.gz"]),
      "HELA".
    split; vm_compute; reflexivity. }
  split; [|split].
  - refine (proj1 (proj2 (first_failure_is_raised Fixtures.bucket
              Fixtures.batch0 _ Faulty.registries [Fixtures.s1]
              [Faulty.absent] Faulty.no_cell_line _ Hs1)) _ _ _);
      vm_compute; reflexivity.
  - refine (proj2 (proj2 (first_failure_is_raised Fixtures.bucket
              Fixtures.batch0 _ Faulty.registries [Fixtures.s1]
              [Faulty.absent] Faulty.numeric_cell_line _ Hs1))
              _ (JNum 7) _ _ _); try (vm_compute; reflexivity).
    discriminate.
  - refine (proj1 (first_failure_is_raised Fixtures.bucket
              Fixtures.batch0 _ Faulty.registries [Fixtures.s1]
              [Faulty.no_cell_line] Faulty.absent _ Hs1) _);
      vm_compute; reflexivity.
Defined.

(** X2: when a sample sheet is built.  Cells 4 and 5 give a frame exactly
    when every matching identifier is readable and, over all matching
    packages together, the member files that pass the forward test and
    those that pass the reverse test are each as many as the matching
    identifiers. *)
Theorem sheet_built_iff (registry batch : string) (packages : list string)
    (w : Registries) :
  (exists df, fst (build_sample_sheet registry batch packages w) = Ok df) <->
  Forall (readable w registry) (matching batch packages) /\
  total_reads "_1.fastq.gz" w registry (matching batch packages) =
    length (matching batch packages) /\
  total_reads "_2.fastq.gz" w registry (matching batch packages) =
    length (matching batch packages).
Proof.
  rewrite build_sample_sheet_gather. cbn [fst]. split.
  - intros [df H].
    destruct (gather w registry batch _ _) as [l|e] eqn:G; [|discriminate].
    apply create_sample_sheet_ok in H as (H1 & H2 & _).
    destruct (gather_lengths _ _ _ _ _ _ G) as (Ls & L1 & L2).
    cbn [samples fastq1 fastq2 length] in Ls, L1, L2.
    split; [|lia].
    apply (gather_readable registry batch w _ (mkLists [] [] [])). now exists l.
  - intros (Hr & H1 & H2).
    apply (gather_readable registry batch w _ (mkLists [] [] [])) in Hr
      as [l G].
    rewrite G. destruct (gather_lengths _ _ _ _ _ _ G) as (Ls & L1 & L2).
    cbn [samples fastq1 fastq2 length] in Ls, L1, L2.
    destruct l as [s fq1 fq2]. cbn [samples fastq1 fastq2] in *.
    eexists. apply create_sample_sheet_equal; lia.
Qed.

(** X15: the exceptions of cells 4 and 5.  They raise nothing but
    [RegistryAccessError], [KeyError] on [CellLine], [TypeError] and
    [ValueError]; the insertion of the last column never fails.
    [ValueError] is raised exactly when every matching identifier is
    readable and one of the two totals of reads differs from the number of
    matching identifiers. *)
Theorem build_exceptions (registry batch : string) (packages : list string)
    (w : Registries) (e : exn) :
  fst (build_sample_sheet registry batch packages w) = Raise e ->
  (e = RegistryAccessError \/ e = KeyError "CellLine" \/ e = TypeError \/
   e = ValueError) /\
  (e = ValueError <->
   Forall (readable w registry) (matching batch packages) /\
   (total_reads "_1.fastq.gz" w registry (matching batch packages) <>
      length (matching batch packages) \/
    total_reads "_2.fastq.gz" w registry (matching batch packages) <>
      length (matching batch packages))).
Proof.
  rewrite build_sample_sheet_gather. cbn [fst].
  destruct (gather w registry batch _ _) as [l|e'] eqn:G.
  - intros H. pose proof (create_sample_sheet_error _ _ H) as ->.
    split; [auto|]. split; [intros _|reflexivity].
    split.
    + apply (gather_readable registry batch w _ (mkLists [] [] [])).
      now exists l.
    + destruct (gather_lengths _ _ _ _ _ _ G) as (Ls & L1 & L2).
      cbn [samples fastq1 fastq2 length] in Ls, L1, L2.
      destruct (Nat.eq_dec (length (fastq1 l)) (length (samples l))) as [E1|N1];
        [|left; lia].
      destruct (Nat.eq_dec (length (fastq2 l)) (length (samples l))) as [E2|N2];
        [|right; lia].
      destruct l as [s fq1 fq2]. cbn [samples fastq1 fastq2] in *.
      rewrite (create_sample_sheet_equal s fq1 fq2 E1 E2) in H. discriminate.
  - intros [= <-]. pose proof (gather_error _ _ _ _ _ _ G) as He.
    split; [tauto|]. split.
    + intros ->. destruct He as [He | [He | He]]; discriminate.
    + intros [Hr _].
      apply (gather_readable registry batch w _ (mkLists [] [] [])) in Hr
        as [l Hl].
      congruence.
Qed.

Lemma build_exceptions_witness :
  Forall (readable Fixtures.demo Fixtures.bucket)
    (matching Fixtures.batch0 [Fixtures.two_forward]) /\
  (total_reads "_1.fastq.gz" Fixtures.demo Fixtures.bucket
     (matching Fixtures.batch0 [Fixtures.two_forward]) <>
   length (matching Fixtures.batch0 [Fixtures.two_forward]) \/
   total_reads "_2.fastq.gz" Fixtures.demo Fixtures.bucket
     (matching Fixtures.batch0 [Fixtures.two_forward]) <>
   length (matching Fixtures.batch0 [Fixtures.two_forward])).
Proof.
  apply (build_exceptions Fixtures.bucket Fixtures.batch0
           [Fixtures.two_forward] Fixtures.demo ValueError).
  - vm_compute. reflexivity.
  - reflexivity.
Defined.

(** X3: a listing without matching identifier, the empty one included.
    Nothing is browsed, so the registries need not even exist; the sample
    sheet has the four columns and no row, and its file is the header line
    alone. *)
Theorem no_match_empty_sheet (registry batch : string)
    (packages : list string) (w : Registries) (pf : Platform) :
  matching batch packages = [] ->
  build_sample_sheet registry batch packages w = (Ok (sheet_of []), w) /\
  shape (sheet_of []) = (0, 4) /\
  snd (save_sample_sheet pf batch (sheet_of [])) =
  "sample,fastq_1,fastq_2,strandedness" +:+ linesep pf.
Proof.
  intros Hm. rewrite build_sample_sheet_gather, Hm. cbn [gather].
  repeat split. now destruct pf.
Qed.

Lemma no_match_empty_sheet_witness :
  build_sample_sheet Fixtures.bucket Fixtures.batch0
    [Fixtures.other_batch; "ccle/other"] ∅ = (Ok (sheet_of []), ∅).
Proof.
  apply (no_match_empty_sheet Fixtures.bucket Fixtures.batch0
           [Fixtures.other_batch; "ccle/other"] ∅ Posix).
  vm_compute. reflexivity.
Defined.

(** X4: the columns of a sample sheet that is built.  The sample column
    holds the names of the matching identifiers in listing order; the two
    location columns hold, in listing order and for each package in the
    order of its member files, the locations of the files that pass the
    forward and the reverse test; the last column is [auto] throughout.
    Rows pair these lists by position, and every column has one cell per
    row. *)
Theorem columns_in_listing_order (registry batch : string)
    (packages : list string) (w : Registries) (df : DataFrame) :
  fst (build_sample_sheet registry batch packages w) = Ok df ->
  exists ids,
    Forall2 (fun p id => exists pkg cl,
               package_at w registry p = Some pkg /\ cell_line pkg = Some cl /\
               id = sample_id cl p) (matching batch packages) ids /\
    df = mkDataFrame (length (matching batch packages))
           [("sample", ids);
            ("fastq_1",
             flat_map (locations "_1.fastq.gz" w registry batch)
               (matching batch packages));
            ("fastq_2",
             flat_map (locations "_2.fastq.gz" w registry batch)
               (matching batch packages));
            ("strandedness",
             repeat "auto" (length (matching batch packages)))] /\
    well_formed df.
Proof.
  rewrite build_sample_sheet_gather. cbn [fst].
  destruct (gather w registry batch _ _) as [l|e] eqn:G; [|discriminate].
  intros H. apply create_sample_sheet_ok in H as (H1 & H2 & ->).
  destruct (gather_columns _ _ _ _ _ G) as [C1 C2].
  destruct (gather_lengths _ _ _ _ _ _ G) as (Ls & _).
  cbn [samples length] in Ls.
  exists (samples l). split; [now apply (gather_samples registry batch)|].
  split; [now rewrite Ls, C1, C2|].
  unfold well_formed. cbn [columns nrows snd].
  repeat constructor; cbn [snd]; now rewrite ?repeat_length.
Qed.

Lemma columns_in_listing_order_witness :
  exists ids,
    Forall2 (fun p id => exists pkg cl,
               package_at Fixtures.demo Fixtures.bucket p = Some pkg /\
               cell_line pkg = Some cl /\ id = sample_id cl p)
      (matching Fixtures.batch0 [Fixtures.no_forward; Fixtures.two_forward]) ids /\
    sheet_of
      [("A549__z",
        "s3://quilt-example-bucket/ccle/20190225_PRJNA523380_d/d_1.fastq.gz",
        "s3://quilt-example-bucket/ccle/20190225_PRJNA523380_z/z_2.fastq.gz");
       ("MCF7__d",
        "s3://quilt-example-bucket/ccle/20190225_PRJNA523380_d/dd_1.fastq.gz",
        "s3://quilt-example-bucket/ccle/20190225_PRJNA523380_d/d_2.fastq.gz")] =
    mkDataFrame
      (length (matching Fixtures.batch0 [Fixtures.no_forward; Fixtures.two_forward]))
      [("sample", ids);
       ("fastq_1",
        flat_map (locations "_1.fastq.gz" Fixtures.demo Fixtures.bucket Fixtures.batch0)
          (matching Fixtures.batch0 [Fixtures.no_forward; Fixtures.two_forward]));
       ("fastq_2",
        flat_map (locations "_2.fastq.gz" Fixtures.demo Fixtures.bucket Fixtures.batch0)
          (matching Fixtures.batch0 [Fixtures.no_forward; Fixtures.two_forward]));
       ("strandedness",
        repeat "auto"
          (length (matching Fixtures.batch0 [Fixtures.no_forward; Fixtures.two_forward])))].
Proof.
  destruct (columns_in_listing_order Fixtures.bucket Fixtures.batch0
              [Fixtures.no_forward; Fixtures.two_forward] Fixtures.demo _
              ltac:(vm_compute; reflexivity)) as (ids & HF & E & _).
  exists ids. split; [exact HF | exact E].
Defined.

(** ** Substrings *)

Lemma prefix_spec (sub s : string) :
  String.prefix sub s = true <-> exists b, s = sub +:+ b.
Proof.
  revert s. induction sub as [|c sub IH]; intros s.
  - split; [intros _; now exists s | now destruct s].
  - destruct s as [|d s]; cbn [String.prefix].
    + split; [discriminate | intros [b Hb]; discriminate].
    + destruct (ascii_dec c d) as [<-|Hcd].
      * rewrite IH. split; intros [b Hb]; exists b.
        -- cbn [append]. now rewrite Hb.
        -- cbn [append] in Hb. now injection Hb.
      * split; [discriminate|]. intros [b Hb]. cbn [append] in Hb.
        injection Hb as Hc _. congruence.
Qed.

Lemma str_in_append_l (sub a s : string) :
  str_in sub s = true -> str_in sub (a +:+ s) = true.
Proof.
  intros H. induction a as [|c a IH]; [exact H|].
  cbn [append str_in]. rewrite IH. apply orb_true_r.
Qed.

Lemma append_not_empty_r (a b : string) : b <> "" -> a +:+ b <> "".
Proof. destruct a, b; cbn [append]; congruence. Qed.

Lemma append_not_empty_l (a b : string) : a <> "" -> a +:+ b <> "".
Proof. destruct a; cbn [append]; congruence. Qed.

(** X10: the test [sub in s] holds exactly when [s] is some text, then
    [sub], then some text: the batch filter and the two read tests are
    substring tests, not prefix or suffix tests. *)
Theorem str_in_substring (sub s : string) :
  str_in sub s = true <-> exists a b, s = a +:+ sub +:+ b.
Proof.
  split.
  - induction s as [|c s IH]; cbn [str_in].
    + rewrite orb_false_r. intros H. apply prefix_spec in H as [b Hb].
      now exists "", b.
    + intros H. apply orb_true_iff in H as [H|H].
      * apply prefix_spec in H as [b Hb]. now exists "", b.
      * destruct (IH H) as (a & b & ->). now exists (String c a), b.
  - intros (a & b & ->). apply str_in_append_l.
    destruct (sub +:+ b) eqn:E; cbn [str_in]; rewrite <- E;
      now rewrite prefix_append.
Qed.

Lemma location_holds_suffix (suffix registry batch p file : string) :
  str_in suffix file = true ->
  str_in suffix (location registry batch p file) = true.
Proof. intros H. unfold location. now apply str_in_append_l. Qed.

Lemma in_locations (suffix : string) (w : Registries)
    (registry batch p cell : string) :
  In cell (locations suffix w registry batch p) ->
  exists pkg file,
    package_at w registry p = Some pkg /\ In file (keys pkg) /\
    str_in suffix file = true /\ cell = location registry batch p file.
Proof.
  unfold locations. destruct (package_at w registry p) as [pkg|]; [|easy].
  intros H. apply in_map_iff in H as (file & <- & Hf).
  unfold reads in Hf. apply filter_In in Hf as [Hk Hs].
  now exists pkg, file.
Qed.

(** X5: where a location comes from.  Every cell of the [fastq_1] column
    of a sample sheet is the location of a member file that passes the
    forward test, in the package of a matching identifier of the listing,
    and the cell itself holds [_1.fastq.gz]; likewise for [fastq_2] and the
    reverse test. *)
Theorem locations_come_from_reads (registry batch : string)
    (packages : list string) (w : Registries) (df : DataFrame) :
  fst (build_sample_sheet registry batch packages w) = Ok df ->
  forall label suffix cells cell,
    (label, suffix) = ("fastq_1", "_1.fastq.gz") \/
    (label, suffix) = ("fastq_2", "_2.fastq.gz") ->
    column df label = Some cells -> In cell cells ->
    exists p pkg file,
      In p packages /\ str_in batch p = true /\
      package_at w registry p = Some pkg /\ In file (keys pkg) /\
      str_in suffix file = true /\
      cell = location registry batch p file /\
      str_in suffix cell = true.
Proof.
  intros H label suffix cells cell Hl Hc Hin.
  apply build_ok_frame in H as (ids & _ & ->).
  assert (Hcells : cells = flat_map (locations suffix w registry batch)
                             (matching batch packages)).
  { destruct Hl as [[= -> ->] | [= -> ->]]; cbn in Hc; congruence. }
  subst cells. apply in_flat_map in Hin as (p & Hp & Hin).
  apply matching_in in Hp as [Hp Hb].
  apply in_locations in Hin as (pkg & file & Hpk & Hk & Hs & ->).
  exists p, pkg, file. repeat split; try assumption.
  now apply location_holds_suffix.
Qed.

Lemma locations_come_from_reads_witness :
  exists p pkg file,
    In p [Fixtures.s1; Fixtures.other_batch; Fixtures.s2] /\
    str_in Fixtures.batch0 p = true /\
    package_at Fixtures.demo Fixtures.bucket p = Some pkg /\
    In file (keys pkg) /\ str_in "_2.fastq.gz" file = true /\
    "s3://quilt-example-bucket/ccle/20190225_PRJNA523380_s2/s2_2.fastq.gz" =
      location Fixtures.bucket Fixtures.batch0 p file /\
    str_in "_2.fastq.gz"
      "s3://quilt-example-bucket/ccle/20190225_PRJNA523380_s2/s2_2.fastq.gz" =
      true.
Proof.
  apply (locations_come_from_reads Fixtures.bucket Fixtures.batch0
           [Fixtures.s1; Fixtures.other_batch; Fixtures.s2] Fixtures.demo _
           ltac:(vm_compute; reflexivity) "fastq_2" "_2.fastq.gz" _ _
           (or_intror eq_refl) ltac:(vm_compute; reflexivity)).
  right. left. reflexivity.
Defined.

Lemma Forall2_in_r {A B} (R : A -> B -> Prop) (l : list A) (l' : list B)
    (y : B) :
  Forall2 R l l' -> In y l' -> exists x, In x l /\ R x y.
Proof.
  induction 1 as [|a b l l' Hab _ IH]; [easy|].
  intros [<- | Hy].
  - exists a. split; [now left | exact Hab].
  - destruct (IH Hy) as (x & Hx & Hr). exists x. split; [now right | exact Hr].
Qed.

(** X6: no cell of a sample sheet that is built is the empty string. *)
Theorem no_empty_cell (registry batch : string) (packages : list string)
    (w : Registries) (df : DataFrame) :
  fst (build_sample_sheet registry batch packages w) = Ok df ->
  forall label cells cell,
    In (label, cells) (columns df) -> In cell cells -> cell <> "".
Proof.
  intros H label cells cell Hcol Hin.
  apply build_ok_frame in H as (ids & HF & ->). cbn [columns] in Hcol.
  destruct Hcol as [E | [E | [E | [E | []]]]]; injection E as <- <-.
  - destruct (Forall2_in_r _ _ _ _ HF Hin) as (p & _ & pkg & cl & _ & _ & ->).
    unfold sample_id. apply append_not_empty_l, append_not_empty_r.
    discriminate.
  - apply in_flat_map in Hin as (p & _ & Hin).
    apply in_locations in Hin as (pkg & file & _ & _ & _ & ->).
    unfold location. apply append_not_empty_l, append_not_empty_r.
    discriminate.
  - apply in_flat_map in Hin as (p & _ & Hin).
    apply in_locations in Hin as (pkg & file & _ & _ & _ & ->).
    unfold location. apply append_not_empty_l, append_not_empty_r.
    discriminate.
  - apply repeat_spec in Hin as ->. discriminate.
Qed.

Lemma no_empty_cell_witness :
  "HELA__s1" <> "".
Proof.
  apply (no_empty_cell Fixtures.bucket Fixtures.batch0 [Fixtures.s1]
           Fixtures.demo _ ltac:(vm_compute; reflexivity)
           "sample" ["HELA__s1"] "HELA__s1"); now left.
Defined.

(** X7: the loop over a listing in two parts.  The lists of a concatenated
    listing are those of the first part followed by those of the second;
    an exception of the first part comes before one of the second. *)
Theorem collect_concatenation (registry batch : string)
    (l1 l2 : list string) (w : Registries) :
  fst (collect registry batch (l1 ++ l2) w) =
  match fst (collect registry batch l1 w) with
  | Ok a =>
      match fst (collect registry batch l2 w) with
      | Ok b => Ok (append_lists a b)
      | Raise e => Raise e
      end
  | Raise e => Raise e
  end.
Proof.
  unfold collect. rewrite !for_packages_gather. cbn [fst].
  rewrite matching_app, gather_app.
  destruct (gather w registry batch _ (matching batch l1)) as [a|e];
    [|reflexivity].
  apply gather_from.
Qed.

(** X8: an identifier that does not hold the fixed text
    [ccle/20190225_PRJNA523380_] is not stripped at all: its sample name is
    the CellLine value, two underscores and the whole identifier, and its
    locations are the registry, a slash, the batch, an underscore, the
    whole identifier, a slash and the file, whatever the batch. *)
Theorem identifier_without_fixed_text (p : string) :
  str_in "ccle/20190225_PRJNA523380_" p = false ->
  stripped p = p /\
  (forall cl, sample_id cl p = cl +:+ "__" +:+ p) /\
  (forall registry batch file,
     location registry batch p file =
     registry +:+ "/" +:+ batch +:+ "_" +:+ p +:+ "/" +:+ file).
Proof.
  intros H.
  assert (E : stripped p = p) by now apply replace_scan_absent.
  split; [exact E|]. split.
  - intros cl. unfold sample_id. now rewrite E, append_assoc.
  - intros registry batch file. unfold location.
    now rewrite E, !append_assoc.
Qed.

Lemma identifier_without_fixed_text_witness :
  location "s3://bkt" "proj/b1" "proj/b1_s1" "s1_1.fastq.gz" =
  "s3://bkt" +:+ "/" +:+ "proj/b1" +:+ "_" +:+ "proj/b1_s1" +:+ "/" +:+
  "s1_1.fastq.gz".
Proof.
  apply (identifier_without_fixed_text "proj/b1_s1"). vm_compute. reflexivity.
Defined.

Lemma notebook_batch_row_witness :
  fst (build_sample_sheet Fixtures.bucket "ccle/20190225_PRJNA523380"
         ["ccle/20190225_PRJNA523380_" +:+ "s2"] Fixtures.demo) =
  Ok (sheet_of
        [("K562" +:+ "__" +:+ "s2",
          Fixtures.bucket +:+ "/" +:+ ("ccle/20190225_PRJNA523380_" +:+ "s2")
            +:+ "/" +:+ "s2_1.fastq.gz",
          Fixtures.bucket +:+ "/" +:+ ("ccle/20190225_PRJNA523380_" +:+ "s2")
            +:+ "/" +:+ "s2_2.fastq.gz")]).
Proof.
  apply (notebook_batch_row Fixtures.bucket "s2" "K562" "s2_1.fastq.gz"
           "s2_2.fastq.gz"
           (Fixtures.raw_package "K562" ["s2_1.fastq.gz"; "s2_2.fastq.gz"])
           Fixtures.demo); vm_compute; reflexivity.
Defined.





(** X13: the file determines the sample sheet.  Two sample sheets whose
    files have the same text are the same frame, built from the same three
    lists. *)
Theorem file_determines_sheet (pf : Platform) (l1 l2 : Lists)
    (df1 df2 : DataFrame) :
  create_sample_sheet l1 = Ok df1 -> create_sample_sheet l2 = Ok df2 ->
  to_csv df1 false (linesep pf) = to_csv df2 false (linesep pf) ->
  df1 = df2 /\ l1 = l2.
Proof.
  intros H1 H2 Ht.
  destruct (create_sample_sheet_sheet_of _ _ H1) as (r1 & E1 & _).
  destruct (create_sample_sheet_sheet_of _ _ H2) as (r2 & E2 & _).
  assert (R1 : read_csv pf (to_csv df1 false (linesep pf)) = Some df1)
    by (rewrite E1; apply read_csv_to_csv, sheet_of_well_formed).
  assert (R2 : read_csv pf (to_csv df2 false (linesep pf)) = Some df2)
    by (rewrite E2; apply read_csv_to_csv, sheet_of_well_formed).
  rewrite Ht, R2 in R1. injection R1 as <-. split; [reflexivity|].
  apply create_sample_sheet_ok in H1 as (_ & _ & F1).
  apply create_sample_sheet_ok in H2 as (_ & _ & F2).
  rewrite F1 in F2. injection F2 as _ Es E1' E2'.
  destruct l1, l2. cbn [samples fastq1 fastq2] in *. congruence.
Qed.

(** X14: the path of the file.  For a batch made of [ccle/] and a rest
    that does not hold [ccle/], the file is named after the rest, in
    [~/data/nfcore]; a batch that is this rest alone gives the same path. *)
Theorem sheet_path_drops_project (pf : Platform) (s : string)
    (df : DataFrame) :
  str_in "ccle/" s = false ->
  fst (save_sample_sheet pf ("ccle/" +:+ s) df) =
    "~/data/nfcore/" +:+ s +:+ "__samplesheet.csv" /\
  fst (save_sample_sheet pf s df) =
    "~/data/nfcore/" +:+ s +:+ "__samplesheet.csv".
Proof.
  intros H. unfold save_sample_sheet, sheet_name, outpath. cbn [fst].
  split.
  - rewrite str_replace_prefix by assumption. reflexivity.
  - unfold str_replace. rewrite replace_scan_absent by assumption.
    reflexivity.
Qed.

Lemma sheet_path_drops_project_witness :
  fst (save_sample_sheet Posix ("ccle/" +:+ "20190225_PRJNA523380")
         (sheet_of [])) =
  "~/data/nfcore/" +:+ "20190225_PRJNA523380" +:+ "__samplesheet.csv".
Proof.
  refine (proj1 (sheet_path_drops_project Posix "20190225_PRJNA523380"
                   (sheet_of []) _)).
  vm_compute. reflexivity.
Defined.

Lemma file_determines_sheet_witness :
  sheet_of [("HELA__s1", "a", "b")] = sheet_of [("HELA__s1", "a", "b")] /\
  mkLists ["HELA__s1"] ["a"] ["b"] = mkLists ["HELA__s1"] ["a"] ["b"].
Proof.
  apply (file_determines_sheet Windows (mkLists ["HELA__s1"] ["a"] ["b"])
           (mkLists ["HELA__s1"] ["a"] ["b"])); reflexivity.
Defined.

Lemma replace_scan_leading (c : ascii) (old new s : string) :
  replace_scan (String c old) new 0 (String c old +:+ s) =
  new +:+ replace_scan (String c old) new 0 s.
Proof.
  change (String c old +:+ s) with (String c (old +:+ s)).
  cbn [replace_scan].
  change (String c (old +:+ s)) with (String c old +:+ s).
  rewrite prefix_append.
  replace (String.length (String c old) - 1) with (String.length old)
    by (cbn [String.length]; lia).
  now rewrite replace_scan_skip.
Qed.

(** X16: the fixed text at the head of an identifier is dropped before
    anything else is looked at: an identifier and the same identifier with
    the fixed text put in front have the same stripped form, hence the same
    sample name for one CellLine value and the same locations. *)
Theorem leading_fixed_text_is_dropped (s : string) :
  stripped ("ccle/20190225_PRJNA523380_" +:+ s) = stripped s /\
  (forall cl,
     sample_id cl ("ccle/20190225_PRJNA523380_" +:+ s) = sample_id cl s) /\
  (forall registry batch file,
     location registry batch ("ccle/20190225_PRJNA523380_" +:+ s) file =
     location registry batch s file).
Proof.
  assert (E : stripped ("ccle/20190225_PRJNA523380_" +:+ s) = stripped s).
  { unfold stripped, str_replace.
    exact (replace_scan_leading "c" "cle/20190225_PRJNA523380_" "" s). }
  split; [exact E|]. split.
  - intros cl. unfold sample_id. now rewrite E.
  - intros registry batch file. unfold location. now rewrite E.
Qed.
